(** * ChatLLaMA RLHF trainer: actor-critic rollout, PPO update, checkpoints

    A shallow embedding of the parts of
      apps/accelerate/chatllama/chatllama/rlhf/trainer.py
      apps/accelerate/chatllama/chatllama/rlhf/base_model.py
      apps/accelerate/chatllama/chatllama/rlhf/reward.py
    that the specification talks about, followed by the properties that
    were checked against them.

    Conventions of the embedding.
    - Python exceptions are values of [exn]; a call that can raise returns
      a [result]; code that mutates the trainer is a function of the
      trainer state returning the result paired with the state reached
      (a raise keeps whatever was mutated before it).
    - Tensor entries are exact rationals extended with one not-a-number
      element that every arithmetic operation propagates.  Rounding and the
      infinities of IEEE arithmetic are not represented.
    - exp, log and sqrt, the pretrained networks, the tokenizers and the
      model catalog of [model_list.py] are parameters of the sections that
      use them. *)

From Stdlib Require Import QArith Qcanon Lqa Ascii String.
From stdpp Require Import base strings list gmap numbers.

Open Scope Qc_scope.

(* ================================================================== *)
(** ** Python runtime: exceptions and results *)

Inductive exn : Type :=
| ValueError (msg : string)
| RuntimeError (msg : string)
| IndexError (msg : string)
| KeyError (key : string)
| TypeError (msg : string)
| OSError (msg : string)
| UnpicklingError (msg : string)
| AttributeError (name : string).

Inductive result (A : Type) : Type :=
| Ok (a : A)
| Raise (e : exn).

Arguments Ok {A} a.
Arguments Raise {A} e.

Definition rbind {A B} (r : result A) (k : A -> result B) : result B :=
  match r with
  | Ok a => k a
  | Raise e => Raise e
  end.

#[export] Instance result_ret : MRet result := fun A a => Ok a.

#[export] Instance result_bind : MBind result := fun A B k r => rbind r k.

(** [result] lifted over a list, left to right: the first raise wins. *)
Fixpoint rmap {A B} (f : A -> result B) (l : list A) : result (list B) :=
  match l with
  | [] => Ok []
  | a :: l' =>
      match f a with
      | Raise e => Raise e
      | Ok b =>
          match rmap f l' with
          | Raise e => Raise e
          | Ok bs => Ok (b :: bs)
          end
      end
  end.

Fixpoint rmap2 {A B C} (f : A -> B -> result C) (l1 : list A) (l2 : list B)
  : result (list C) :=
  match l1, l2 with
  | a :: l1', b :: l2' =>
      match f a b with
      | Raise e => Raise e
      | Ok c =>
          match rmap2 f l1' l2' with
          | Raise e => Raise e
          | Ok cs => Ok (c :: cs)
          end
      end
  | _, _ => Ok []
  end.

(** Stateful code: the state reached is returned also when the call raises. *)
Definition M (S A : Type) : Type := S -> result A * S.

Definition mret {S A} (a : A) : M S A := fun s => (Ok a, s).

Definition mraise {S A} (e : exn) : M S A := fun s => (Raise e, s).

Definition mbind' {S A B} (m : M S A) (k : A -> M S B) : M S B :=
  fun s =>
    match m s with
    | (Ok a, s') => k a s'
    | (Raise e, s') => (Raise e, s')
    end.

Definition mlift {S A} (r : result A) : M S A := fun s => (r, s).

Definition mget {S} : M S S := fun s => (Ok s, s).

Definition mmodify {S} (f : S -> S) : M S unit := fun s => (Ok tt, f s).

#[export] Instance M_ret {S} : MRet (M S) := fun A a => mret a.

#[export] Instance M_bind {S} : MBind (M S) := fun A B k m => mbind' m k.

#[export] Instance M_fmap {S} : FMap (M S) :=
  fun A B f m => mbind' m (fun a => mret (f a)).

(** [try: body except Exception: handler].  Every constructor of [exn] is a
    subclass of Python's [Exception], so the handler takes them all. *)
Definition try_except {S A} (body : M S A) (handler : exn -> M S A) : M S A :=
  fun s =>
    match body s with
    | (Ok a, s') => (Ok a, s')
    | (Raise e, s') => handler e s'
    end.

(* ================================================================== *)
(** ** Python strings *)

(** ["c" in s] for a one-character needle. *)
Fixpoint str_contains (c : ascii) (s : string) : bool :=
  match s with
  | EmptyString => false
  | String a s' => if Ascii.eqb a c then true else str_contains c s'
  end.

(** [s.split(c)] for a one-character separator: never empty, and one item
    longer than the number of separators in [s]. *)
Fixpoint str_split (c : ascii) (s : string) : list string :=
  match s with
  | EmptyString => [EmptyString]
  | String a s' =>
      if Ascii.eqb a c then EmptyString :: str_split c s'
      else
        match str_split c s' with
        | h :: t => String a h :: t
        | [] => [String a EmptyString]
        end
  end.

(** [l[i]] on a Python list. *)
Definition py_index {A} (l : list A) (i : nat) : result A :=
  match l !! i with
  | Some a => Ok a
  | None => Raise (IndexError "list index out of range")
  end.

(* ================================================================== *)
(** ** trainer.py: check_model_family *)

(** The configurations [ConfigActor], [ConfigCritic] and [ConfigReward]
    (config.py) as far as the trainer reads them. *)
Record ConfigModel : Type := {
  model : string;
}.

Section ModelFamily.

(** The catalog [hf_models] of model_list.py. *)
Variable hf_models : list string.

Definition in_hf_models (name : string) : bool :=
  bool_decide (name ∈ hf_models).

(** [if "/" in name: name = name.split("/")[1]] *)
Definition strip_namespace (name : string) : result string :=
  if str_contains "/" name then py_index (str_split "/" name) 1
  else Ok name.

Definition check_model_family (config1 config2 : ConfigModel) : result bool :=
  if in_hf_models (model config1) && in_hf_models (model config2) then
    model_name1 ← strip_namespace (model config1);
    model_name2 ← strip_namespace (model config2);
    base1 ← py_index (str_split "-" model_name1) 0;
    base2 ← py_index (str_split "-" model_name2) 0;
    Ok (bool_decide (base1 = base2))
  else if negb (in_hf_models (model config1))
          && negb (in_hf_models (model config2)) then
    Ok true
  else
    Ok false.

End ModelFamily.

(* ================================================================== *)
(** ** Tensors *)

(** One entry of a floating-point tensor. *)
Inductive tfloat : Type :=
| Fin (q : Qc)
| NaN.

Definition tlift2 (f : Qc -> Qc -> Qc) (a b : tfloat) : tfloat :=
  match a, b with
  | Fin x, Fin y => Fin (f x y)
  | _, _ => NaN
  end.

Definition tadd : tfloat -> tfloat -> tfloat := tlift2 Qcplus.
Definition tsub : tfloat -> tfloat -> tfloat := tlift2 Qcminus.
Definition tmul : tfloat -> tfloat -> tfloat := tlift2 Qcmult.

Definition tneg (a : tfloat) : tfloat :=
  match a with
  | Fin x => Fin (- x)
  | NaN => NaN
  end.

(** Division; a zero divisor gives not-a-number (0/0 in IEEE arithmetic; the
    infinities of x/0 are not represented). *)
Definition tdiv (a b : tfloat) : tfloat :=
  match a, b with
  | Fin x, Fin y => if bool_decide (y = 0) then NaN else Fin (x / y)
  | _, _ => NaN
  end.

Definition Qc_max (x y : Qc) : Qc := if bool_decide (x ≤ y) then y else x.
Definition Qc_min (x y : Qc) : Qc := if bool_decide (x ≤ y) then x else y.

(** [torch.max(a, b)] and [torch.min(a, b)] on entries. *)
Definition tmax : tfloat -> tfloat -> tfloat := tlift2 Qc_max.
Definition tmin : tfloat -> tfloat -> tfloat := tlift2 Qc_min.

(** [x.clamp(lo, hi)], which torch computes as [min(max(x, lo), hi)]. *)
Definition tclamp (x lo hi : tfloat) : tfloat := tmin (tmax x lo) hi.

(** [x ** n] for a natural exponent. *)
Definition tpow (x : tfloat) (n : nat) : tfloat :=
  match x with
  | Fin q => Fin (q ^ n)
  | NaN => NaN
  end.

(** Entries written as integers and as fractions. *)
Definition fin (z : Z) : tfloat := Fin (Q2Qc (inject_Z z)).
Definition frac (n : Z) (d : positive) : tfloat := Fin (Q2Qc (n # d)).

Definition tfloat_of_nat (n : nat) : tfloat := fin (Z.of_nat n).

(** [torch.isnan] on one entry. *)
Definition isnan (a : tfloat) : bool :=
  match a with
  | Fin _ => false
  | NaN => true
  end.

(** Tensors of rank 1, 2 and 3 are nested lists, outermost dimension first. *)
Abbreviation tensor1 := (list tfloat).
Abbreviation tensor2 := (list (list tfloat)).
Abbreviation tensor3 := (list (list (list tfloat))).
(** Token ids and masks, [batch, seq_len]. *)
Abbreviation tokens := (list (list Z)).

(** [t.shape[1]] of a tensor kept as a list of rows. *)
Definition shape1 {A} (t : list (list A)) : nat :=
  match t with
  | r :: _ => length r
  | [] => 0%nat
  end.

(** Broadcasting along one dimension: equal sizes pair up, a size of one is
    repeated, anything else is torch's size-mismatch error. *)
Definition bcast {A B C} (f : A -> B -> result C) (l1 : list A) (l2 : list B)
  : result (list C) :=
  if (length l1 =? length l2)%nat then rmap2 f l1 l2
  else
    match l1, l2 with
    | [a], _ => rmap (f a) l2
    | _, [b] => rmap (fun a => f a b) l1
    | _, _ =>
        Raise (RuntimeError
                 "The size of tensor a must match the size of tensor b")
    end.

Definition op1 (f : tfloat -> tfloat -> tfloat) (a b : tensor1)
  : result tensor1 :=
  bcast (fun x y => Ok (f x y)) a b.

Definition op2 (f : tfloat -> tfloat -> tfloat) (a b : tensor2)
  : result tensor2 :=
  bcast (op1 f) a b.

(** A rank-1 operand against a rank-2 one is read as a single row. *)
Definition op2_1 (f : tfloat -> tfloat -> tfloat) (a : tensor2) (v : tensor1)
  : result tensor2 :=
  op2 f a [v].

Definition map2d (f : tfloat -> tfloat) (a : tensor2) : tensor2 :=
  map (map f) a.

Definition tsum (l : tensor1) : tfloat := foldr tadd (Fin 0) l.

(** [t.sum(dim=-1)] and [t.mean(dim=-1)] on a rank-2 tensor. *)
Definition sum_last (t : tensor2) : tensor1 := map tsum t.

Definition mean1 (l : tensor1) : tfloat := tdiv (tsum l) (tfloat_of_nat (length l)).

Definition mean_last (t : tensor2) : tensor1 := map mean1 t.

(** [t.mean()] over all entries. *)
Definition mean_all (t : tensor2) : tfloat := mean1 (concat t).

(** [t[:, -n:]] on one row: Python reads [-0:] as the whole row, and a
    slice longer than the row is the whole row too. *)
Definition py_last_n {A} (n : nat) (l : list A) : list A :=
  if (n =? 0)%nat then l else drop (length l - n) l.

(** [t[:, -1]]: the last column; indexing a row of size 0 raises. *)
Definition last_column {A} (t : list (list A)) : result (list A) :=
  rmap (fun r => match r !! (length r - 1)%nat with
                 | Some x => Ok x
                 | None =>
                     Raise (IndexError
                              "index -1 is out of bounds for dimension 1 with size 0")
                 end) t.

(** [t.item()]: only a one-element tensor converts to a scalar. *)
Definition item {A} (t : list A) : result A :=
  match t with
  | [a] => Ok a
  | _ =>
      Raise (RuntimeError
               "a Tensor with more than one element cannot be converted to Scalar")
  end.

(** [torch.stack] of rows: all rows must have the same size. *)
Definition stack {A} (rows : list (list A)) : result (list (list A)) :=
  match rows with
  | [] => Raise (RuntimeError "stack expects a non-empty TensorList")
  | r :: rest =>
      if forallb (fun r' => (length r' =? length r)%nat) rest then Ok rows
      else Raise (RuntimeError "stack expects each tensor to be equal size")
  end.

(* ================================================================== *)
(** ** trainer.py: configuration, experience records, ActorCritic.forward *)

(** [config.trainer] (config.py) as far as [learn] and [train] read it. *)
Record ConfigTrainer : Type := {
  epochs : nat;
  actor_eps_clip : tfloat;
  critic_eps_clip : tfloat;
  beta_s : tfloat;
  batch_size : nat;
  gamma_discounted : tfloat;
  deepspeed_enable : bool;
  accelerate_enable : bool;
}.

Record Config : Type := {
  actor : ConfigModel;
  critic : ConfigModel;
  reward : ConfigModel;
  trainer : ConfigTrainer;
}.

(** The namedtuple [Memory]. *)
Record Memory : Type := {
  states_actor : list Z;
  actions : list Z;
  values : tensor1;
  rewards : tensor1;
  actions_log_probs : tensor1;
  sequences_actor : list Z;
  sequences_mask_actor : list Z;
  sequences_critic : list Z;
  sequences_mask_critic : list Z;
  action_len_actor : nat;
  action_len_critic : nat;
}.

(** One mini-batch as the DataLoader's default collate function hands it to
    the loop of [learn]: every tensor field stacked, every int field turned
    into a rank-1 tensor. *)
Record Batch : Type := {
  b_states_actor : tokens;
  b_old_actions : tokens;
  b_old_values : tensor2;
  b_rewards : tensor2;
  b_old_actions_log_probs : tensor2;
  b_sequences_actor : tokens;
  b_sequences_mask_actor : tokens;
  b_sequences_critic : tokens;
  b_sequences_mask_critic : tokens;
  b_action_len_actor : list nat;
  b_action_len_critic : list nat;
}.

Definition collate (ms : list Memory) : result Batch :=
  sa ← stack (map states_actor ms);
  ac ← stack (map actions ms);
  va ← stack (map values ms);
  re ← stack (map rewards ms);
  lp ← stack (map actions_log_probs ms);
  qa ← stack (map sequences_actor ms);
  ma ← stack (map sequences_mask_actor ms);
  qc ← stack (map sequences_critic ms);
  mc ← stack (map sequences_mask_critic ms);
  Ok {| b_states_actor := sa; b_old_actions := ac; b_old_values := va;
        b_rewards := re; b_old_actions_log_probs := lp;
        b_sequences_actor := qa; b_sequences_mask_actor := ma;
        b_sequences_critic := qc; b_sequences_mask_critic := mc;
        b_action_len_actor := map action_len_actor ms;
        b_action_len_critic := map action_len_critic ms |}.

(** The index ranges a DataLoader without shuffling and with
    [drop_last=False] walks through: consecutive groups of [n] records, the
    last one possibly shorter. *)
Fixpoint chunks_fuel {A} (fuel n : nat) (l : list A) : list (list A) :=
  match fuel with
  | O => []
  | S fuel' =>
      match l with
      | [] => []
      | _ => take n l :: chunks_fuel fuel' n (drop n l)
      end
  end.

Definition chunks {A} (n : nat) (l : list A) : list (list A) :=
  chunks_fuel (length l) n l.

(** A tokenizer of the transformers library, as the trainer uses it:
    [tok_call texts] is [tokenizer(texts, padding=True, truncation=True,
    return_tensors="pt")], giving [input_ids] and [attention_mask]. *)
Record Tokenizer : Type := {
  tok_call : list string -> tokens * tokens;
  tok_decode : list Z -> string;
  pad_token : string;
  eos_token : string;
  pad_token_id : Z;
}.

(** [s.replace(old, "")]: every occurrence of [old] found from left to
    right, without overlap, is dropped; an empty [old] changes nothing.
    [skip] counts the characters of a match still to be dropped. *)
Fixpoint str_remove_from (old : string) (skip : nat) (s : string) : string :=
  match s with
  | EmptyString => EmptyString
  | String a s' =>
      match skip with
      | S k => str_remove_from old k s'
      | O =>
          if String.prefix old s
          then str_remove_from old (String.length old - 1) s'
          else String a (str_remove_from old 0 s')
      end
  end.

Definition str_remove (old s : string) : string :=
  match old with
  | EmptyString => s
  | _ => str_remove_from old 0 s
  end.

(** [change_tokenization(tokens, tokenizer1, tokenizer2)] *)
Definition change_tokenization (toks : tokens) (tokenizer1 tokenizer2 : Tokenizer)
  : tokens * tokens :=
  let decoded_tokens := map (tok_decode tokenizer1) toks in
  let decoded_tokens := map (str_remove (pad_token tokenizer1)) decoded_tokens in
  let decoded_tokens := map (str_remove (eos_token tokenizer1)) decoded_tokens in
  tok_call tokenizer2 decoded_tokens.

(** What [ActorCritic.generate] returns. *)
Record Generated : Type := {
  g_actions : tokens;
  g_actions_logits : tensor3;
  g_values : tensor2;
  g_sequences_actor : tokens;
  g_sequences_mask_actor : tokens;
  g_sequences_critic : tokens;
  g_sequences_mask_critic : tokens;
  g_action_len_actor : nat;
  g_action_len_critic : nat;
}.

(** The constant [self.eps = 1e-8] of [BaseTrainer.__init__]. *)
Definition eps : tfloat := frac 1 100000000.

Section ActorCritic.

(** exp and log on tensor entries. *)
Variables f_exp f_log : tfloat -> tfloat.

(** The catalog [hf_models] of model_list.py. *)
Variable hf_models : list string.

(** The weights of actor and critic, and the networks as functions of them:
    logits [batch, seq, vocab], values and rewards [batch, seq], and the
    actor's sampling of a completion, which returns the new tokens and the
    whole sequence. *)
Variable params : Type.
Variable actor_forward : params -> tokens -> tokens -> tensor3.
Variable critic_forward : params -> tokens -> tokens -> tensor2.
Variable actor_generate : params -> tokens -> tokens -> tokens * tokens.
Variable reward_forward : tokens -> tokens -> tensor2.

Variables actor_tokenizer critic_tokenizer reward_tokenizer : Tokenizer.

(** [ActorCritic.forward] *)
Definition forward (w : params)
    (sequences_actor sequences_mask_actor : tokens)
    (sequences_critic sequences_mask_critic : tokens)
    (action_len_actor action_len_critic : nat) : tensor3 * tensor2 :=
  let actions_logits := actor_forward w sequences_actor sequences_mask_actor in
  let values := critic_forward w sequences_critic sequences_mask_critic in
  let real_actions_logits := map (py_last_n action_len_actor) actions_logits in
  let real_values := map (py_last_n action_len_critic) values in
  (real_actions_logits, real_values).

(** [(sequences != pad_token_id).long()] *)
Definition pad_mask (pad : Z) (sequences : tokens) : tokens :=
  map (map (fun t => if (t =? pad)%Z then 0%Z else 1%Z)) sequences.

(** [ActorCritic.generate]; [use_same_tokenizer] is the attribute that
    [RLTrainer.__init__] sets on the composite. *)
Definition generate (use_same_tokenizer : bool) (w : params)
    (states_actor states_mask_actor states_critic : tokens) : Generated :=
  let '(actions, sequences_actor) :=
    actor_generate w states_actor states_mask_actor in
  let sequences_mask_actor :=
    pad_mask (pad_token_id actor_tokenizer) sequences_actor in
  let action_len_actor := shape1 actions in
  let '(sequences_critic, sequences_mask_critic, action_len_critic) :=
    if use_same_tokenizer then
      (sequences_actor, sequences_mask_actor, action_len_actor)
    else
      let encoded_critic :=
        change_tokenization sequences_actor actor_tokenizer critic_tokenizer in
      (fst encoded_critic, snd encoded_critic, shape1 states_critic) in
  let '(actions_logits, values) :=
    forward w sequences_actor sequences_mask_actor
      sequences_critic sequences_mask_critic
      action_len_actor action_len_critic in
  {| g_actions := actions;
     g_actions_logits := actions_logits;
     g_values := values;
     g_sequences_actor := sequences_actor;
     g_sequences_mask_actor := sequences_mask_actor;
     g_sequences_critic := sequences_critic;
     g_sequences_mask_critic := sequences_mask_critic;
     g_action_len_actor := action_len_actor;
     g_action_len_critic := action_len_critic |}.

(** [torch.softmax(row, dim=-1)] on one vocabulary row. *)
Definition softmax (row : tensor1) : tensor1 :=
  let e := map f_exp row in
  map (fun x => tdiv x (tsum e)) e.

(** [row.max(dim=-1).values]; reducing a dimension of size 0 raises. *)
Definition max_last (row : tensor1) : result tfloat :=
  match row with
  | [] => Raise (IndexError "max(): Expected reduction dim to have non-zero size")
  | x :: rest => Ok (foldl tmax x rest)
  end.

(** [torch.softmax(logits, dim=-1).max(dim=-1).values] *)
Definition max_softmax (logits : tensor3) : result tensor2 :=
  rmap (rmap (fun row => max_last (softmax row))) logits.

(** [torch.log(prob + self.eps)] *)
Definition log_probs (prob : tensor2) : tensor2 :=
  map2d (fun p => f_log (tadd p eps)) prob.

(** The body of one timestep of [RLTrainer.train], from the sampled prompts
    [inputs] to the records appended to [memories].  The two
    [check_model_family] calls of [RLTrainer.__init__] come first. *)
Definition rollout (config : Config) (w : params) (inputs : list string)
  : result (list Memory) :=
  actorcritic_use_same_tokenizer ←
    check_model_family hf_models (actor config) (critic config);
  use_same_tokenizer ←
    check_model_family hf_models (actor config) (reward config);
  let tok_inputs_act := tok_call actor_tokenizer inputs in
  let states_actor := fst tok_inputs_act in
  let states_mask_actor := snd tok_inputs_act in
  let tok_inputs_crt := tok_call critic_tokenizer inputs in
  let states_critic := fst tok_inputs_crt in
  let g := generate actorcritic_use_same_tokenizer w
             states_actor states_mask_actor states_critic in
  action_prob ← max_softmax (g_actions_logits g);
  let actions_log_probs := log_probs action_prob in
  '(reward_sequence, reward_mask) ←
    (if use_same_tokenizer : bool then
       Ok (g_sequences_actor g, g_sequences_mask_actor g)
     else
       critic_reward_same ←
         check_model_family hf_models (critic config) (reward config);
       Ok (if critic_reward_same : bool then
             (g_sequences_critic g, g_sequences_mask_critic g)
           else
             change_tokenization (g_sequences_actor g)
               actor_tokenizer reward_tokenizer));
  let rewards := reward_forward reward_sequence reward_mask in
  let rewards := map (py_last_n (g_action_len_critic g)) rewards in
  reward ← last_column rewards;
  rmap (fun i =>
          sa ← py_index states_actor i;
          ac ← py_index (g_actions g) i;
          va ← py_index (g_values g) i;
          re ← py_index rewards i;
          lp ← py_index actions_log_probs i;
          qa ← py_index (g_sequences_actor g) i;
          ma ← py_index (g_sequences_mask_actor g) i;
          qc ← py_index (g_sequences_critic g) i;
          mc ← py_index (g_sequences_mask_critic g) i;
          Ok {| states_actor := sa; actions := ac; values := va;
                rewards := re; actions_log_probs := lp;
                sequences_actor := qa; sequences_mask_actor := ma;
                sequences_critic := qc; sequences_mask_critic := mc;
                action_len_actor := g_action_len_actor g;
                action_len_critic := g_action_len_critic g |})
       (seq 0 (length states_actor)).

End ActorCritic.

(* ================================================================== *)
(** ** trainer.py: RLTrainer.learn *)

(** The Python variable whose tensor is handed to a backward call. *)
Inductive loss_var : Type :=
| V_policy_loss
| V_value_loss
| V_loss.

(** The calls [learn] makes on the training backends, with the loss tensor's
    variable and value where one is passed. *)
Inductive event : Type :=
| engine_backward (x : loss_var) (v : tfloat)
| engine_step
| optimizer_zero_grad
| accelerator_backward (x : loss_var) (v : tfloat)
| tensor_backward (x : loss_var) (v : tfloat)
| optimizer_step
| scheduler_step.

(** [TrainingStats] (utils.py): one list per statistic. *)
Record TrainingStats : Type := {
  training_loss : list tfloat;
  training_accuracy : list tfloat;
  value_loss : list tfloat;
  validation_loss : list tfloat;
  validation_accuracy : list tfloat;
}.

(** [BaseTrainer.append_training_stats]: an if/elif chain, so only the
    first argument that is not [None] is recorded. *)
Definition append_training_stats
    (a_training_loss a_training_accuracy a_value_loss
     a_validation_loss a_validation_accuracy : option tfloat)
    (st : TrainingStats) : TrainingStats :=
  match a_training_loss, a_training_accuracy, a_value_loss,
        a_validation_loss, a_validation_accuracy with
  | Some x, _, _, _, _ =>
      {| training_loss := training_loss st ++ [x];
         training_accuracy := training_accuracy st;
         value_loss := value_loss st;
         validation_loss := validation_loss st;
         validation_accuracy := validation_accuracy st |}
  | None, Some x, _, _, _ =>
      {| training_loss := training_loss st;
         training_accuracy := training_accuracy st ++ [x];
         value_loss := value_loss st;
         validation_loss := validation_loss st;
         validation_accuracy := validation_accuracy st |}
  | None, None, Some x, _, _ =>
      {| training_loss := training_loss st;
         training_accuracy := training_accuracy st;
         value_loss := value_loss st ++ [x];
         validation_loss := validation_loss st;
         validation_accuracy := validation_accuracy st |}
  | None, None, None, Some x, _ =>
      {| training_loss := training_loss st;
         training_accuracy := training_accuracy st;
         value_loss := value_loss st;
         validation_loss := validation_loss st ++ [x];
         validation_accuracy := validation_accuracy st |}
  | None, None, None, None, Some x =>
      {| training_loss := training_loss st;
         training_accuracy := training_accuracy st;
         value_loss := value_loss st;
         validation_loss := validation_loss st;
         validation_accuracy := validation_accuracy st ++ [x] |}
  | None, None, None, None, None => st
  end.

Section PPO.

Variables f_exp f_log f_sqrt : tfloat -> tfloat.
Variable hf_models : list string.
Variable params : Type.
Variable actor_forward : params -> tokens -> tokens -> tensor3.
Variable critic_forward : params -> tokens -> tokens -> tensor2.

(** What a backend call does to the weights, given the mini-batch whose
    forward pass built the graph. *)
Variable apply_event : Batch -> event -> params -> params.

Variable config : Config.

(** The part of the trainer object that [learn] reads and writes. *)
Record Trainer : Type := {
  weights : params;
  calls : list event;
  stats : TrainingStats;
}.

Definition emit (b : Batch) (ev : event) : M Trainer unit :=
  mmodify (fun st =>
    {| weights := apply_event b ev (weights st);
       calls := calls st ++ [ev];
       stats := stats st |}).

(** [t.std()]: the unbiased estimate over all entries, not-a-number when
    there are fewer than two. *)
Definition std_all (t : tensor2) : tfloat :=
  let xs := concat t in
  let n := length xs in
  if (n <=? 1)%nat then NaN
  else
    let m := mean1 xs in
    f_sqrt (tdiv (tsum (map (fun x => tpow (tsub x m) 2) xs))
                 (tfloat_of_nat (n - 1))).

(** One entry of [discounted_rewards[:, i]] for one record: the inner loop
    [for j in range(i, L): ... += gamma ** (j - i) * rewards[:, j]]. *)
Definition discounted_at (gamma : tfloat) (r : tensor1) (L i : nat)
  : result tfloat :=
  foldl (fun acc j =>
           a ← acc;
           rj ← py_index r j;
           Ok (tadd a (tmul (tpow gamma (j - i)) rj)))
        (Ok (Fin 0)) (seq i (L - i)).

(** [discounted_rewards], a tensor shaped like [old_values]. *)
Definition discounted_rewards (gamma : tfloat) (old_values rewards : tensor2)
  : result tensor2 :=
  let L := shape1 old_values in
  rmap (fun r => rmap (discounted_at gamma r L) (seq 0 L)) rewards.

(** The advantages of the two branches of the PPO loss. *)
Definition advantages (same_family : bool) (old_values rewards : tensor2)
  : result tensor2 :=
  if same_family then
    let gamma := gamma_discounted (trainer config) in
    dr ← discounted_rewards gamma old_values rewards;
    adv ← op2 tsub dr old_values;
    centred ← op2_1 tsub adv (mean_last adv);
    let s := tadd (std_all adv) eps in
    Ok (map2d (fun x => tdiv x s) centred)
  else
    last_old ← last_column old_values;
    op2_1 tsub rewards last_old.

(** The branch on the model family, as [learn] takes it for a mini-batch. *)
Definition batch_advantages (b : Batch) : result tensor2 :=
  same_family ← check_model_family hf_models (actor config) (critic config);
  advantages same_family (b_old_values b) (b_rewards b).

(** [policy_loss] as it stands when it is tested for not-a-number. *)
Definition policy_loss (actions_logits : tensor3) (b : Batch) : result tfloat :=
  let old_actions_log_probs := b_old_actions_log_probs b in
  let actor_eps_clip := actor_eps_clip (trainer config) in
  let beta_s := beta_s (trainer config) in
  actions_prob ← max_softmax f_exp actions_logits;
  let actions_log_prob := log_probs f_log actions_prob in
  pl ← op2 tmul actions_prob actions_log_prob;
  let entropies := sum_last pl in
  d ← op2 tsub old_actions_log_probs actions_log_prob;
  kl ← op2 tmul actions_prob d;
  let kl_div_loss := mean1 (sum_last kl) in
  lr ← op2 tsub actions_log_prob old_actions_log_probs;
  let ratios := map2d f_exp lr in
  adv ← batch_advantages b;
  surr1 ← op2 tmul adv ratios;
  let clamped :=
    map2d (fun r => tclamp r (tsub (fin 1) actor_eps_clip)
                               (tadd (fin 1) actor_eps_clip)) ratios in
  surr2 ← op2 tmul clamped adv;
  m ← op2 tmin surr1 surr2;
  pl2 ← op2_1 tsub (map2d tneg m) (map (tmul beta_s) entropies);
  Ok (tadd (mean_all pl2) kl_div_loss).

(** [torch.max(value_loss1, value_loss2)], the value loss before the mean. *)
Definition value_loss_elementwise (critic_eps_clip : tfloat)
    (values old_values rewards : tensor2) : result tensor2 :=
  d ← op2 tsub values old_values;
  let clamped := map2d (fun x => tclamp x (tneg critic_eps_clip) critic_eps_clip) d in
  value_loss_clipped ← op2 tadd old_values clamped;
  e1 ← op2 tsub value_loss_clipped rewards;
  let value_loss1 := map2d (fun x => tpow x 2) e1 in
  e2 ← op2 tsub values rewards;
  let value_loss2 := map2d (fun x => tpow x 2) e2 in
  op2 tmax value_loss1 value_loss2.

Definition value_loss_of (values : tensor2) (b : Batch) : result tfloat :=
  t ← value_loss_elementwise (critic_eps_clip (trainer config))
        values (b_old_values b) (b_rewards b);
  Ok (mean_all t).

(** The backward pass and optimizer step of one mini-batch. *)
Definition backward_pass (b : Batch) (loss value_loss : tfloat) : M Trainer unit :=
  if deepspeed_enable (trainer config) then
    emit b (engine_backward V_loss loss);;
    emit b engine_step
  else if accelerate_enable (trainer config) then
    emit b optimizer_zero_grad;;
    emit b (accelerator_backward V_loss loss);;
    emit b optimizer_step;;
    emit b scheduler_step
  else
    emit b optimizer_zero_grad;;
    emit b (tensor_backward V_value_loss value_loss);;
    emit b optimizer_step;;
    emit b scheduler_step.

(** The body of the loop over mini-batches. *)
Definition learn_step (b : Batch) : M Trainer unit :=
  st ← mget;
  la ← mlift (item (b_action_len_actor b));
  lc ← mlift (item (b_action_len_critic b));
  let '(actions_logits, values) :=
    forward params actor_forward critic_forward (weights st)
      (b_sequences_actor b) (b_sequences_mask_actor b)
      (b_sequences_critic b) (b_sequences_mask_critic b) la lc in
  policy_loss ← mlift (policy_loss actions_logits b);
  if isnan policy_loss then mraise (ValueError "Policy Loss is nan")
  else
    value_loss ← mlift (value_loss_of values b);
    if isnan value_loss then mraise (ValueError "Value loss is nan")
    else
      let loss := tadd policy_loss value_loss in
      backward_pass b loss value_loss;;
      mmodify (fun st =>
        {| weights := weights st;
           calls := calls st;
           stats := append_training_stats (Some loss) None (Some value_loss)
                      None None (stats st) |}).

(** [for k, batch in enumerate(self.train_dataloader)], over the groups of
    records the loader collates one after the other. *)
Fixpoint learn_batches (groups : list (list Memory)) : M Trainer unit :=
  match groups with
  | [] => mret tt
  | g :: groups' =>
      b ← mlift (collate g);
      learn_step b;;
      learn_batches groups'
  end.

(** [for epoch in range(epochs)] *)
Fixpoint learn_epochs (n : nat) (groups : list (list Memory)) : M Trainer unit :=
  match n with
  | O => mret tt
  | S n' => learn_batches groups;; learn_epochs n' groups
  end.

(** [RLTrainer.learn].  The DataLoader refuses a batch size of 0 and
    CosineAnnealingWarmRestarts a period [T_0] of 0; [setup_deepspeed] and
    [setup_accelerate] prepare the backend objects and are not part of the
    embedding. *)
Definition learn (memories : list Memory) : M Trainer unit :=
  let batch_size := batch_size (trainer config) in
  if (batch_size =? 0)%nat then
    mraise (ValueError "batch_size should be a positive integer value")
  else if (length memories / batch_size =? 0)%nat then
    mraise (ValueError "Expected positive integer T_0")
  else
    learn_epochs (epochs (trainer config)) (chunks batch_size memories).

End PPO.

Arguments weights {params} _.
Arguments calls {params} _.
Arguments stats {params} _.

(* ================================================================== *)
(** ** reward.py: RewardDataset *)

(** The value under ["score"] in a record of the reward dataset, as
    [json.load] gives it: [None], an int or a float. *)
Inductive score_value : Type :=
| ScoreNull
| ScoreInt (n : Z)
| ScoreFloat (q : Qc).

Record reward_record : Type := {
  user_input : string;
  completion : string;
  score : score_value;
}.

(** Python's truth value of a score: [None], [0] and [0.0] are false. *)
Definition truthy (v : score_value) : bool :=
  match v with
  | ScoreNull => false
  | ScoreInt n => negb (n =? 0)%Z
  | ScoreFloat q => negb (bool_decide (q = 0))
  end.

(** [float(v)]; [float(None)] is a TypeError. *)
Definition py_float (v : score_value) : result Qc :=
  match v with
  | ScoreNull => Raise (TypeError "float() argument must be a string or a real number")
  | ScoreInt n => Ok (Q2Qc (inject_Z n))
  | ScoreFloat q => Ok q
  end.

(** [RewardDataset.__getitem__] *)
Definition getitem (data : list reward_record) (idx : nat)
  : result (string * Qc) :=
  rec ← py_index data idx;
  let user_input := user_input rec in
  let completion := completion rec in
  score ← (if truthy (score rec) then py_float (score rec)
           else Ok (Q2Qc (5 # 2)));
  Ok (user_input +:+ completion, score).

(* ================================================================== *)
(** ** base_model.py: BaseTrainer.save_checkpoint and load_checkpoint *)

(** What [state_dict()] returns and [load_state_dict] takes. *)
Abbreviation state_dict := (list (string * Z)).

(** The values a checkpoint mapping holds. *)
Inductive pyval : Type :=
| PNone
| PBool (b : bool)
| PInt (n : Z)
| PStateDict (sd : state_dict)
| PStats (s : TrainingStats).

(** A language model wrapper: its weights and [is_lora_peft_applied]. *)
Record Net : Type := {
  net_state : state_dict;
  is_lora_peft_applied : bool;
}.

(** [self.model].  The branches for a [Config] read [self.model.actor] and
    [self.model.critic], the other branches read [self.model.model]:
    [ActorCriticModel] is a composite with the two members, [SingleModel]
    one wrapped model, as [RewardTrainer] assigns.  [RLTrainer] keeps its
    composite in [self.actorcritic] and assigns no [self.model]:
    [ModelUnset], where reading the attribute is an AttributeError. *)
Inductive Model : Type :=
| ActorCriticModel (actor_net critic_net : Net)
| SingleModel (net : Net)
| ModelUnset.

(** What a path of the file system holds: a mapping written by
    [torch.save], a directory written by the DeepSpeed engine (the engine's
    own snapshot and the client state), or bytes that are neither. *)
Inductive file : Type :=
| Pickle (d : gmap string pyval)
| EngineDir (snapshot : Model * state_dict * state_dict)
            (client_state : gmap string pyval)
| Garbage (bytes : list Z).

Record BaseTrainer : Type := {
  bt_model : Model;
  bt_optimizer : state_dict;
  bt_scheduler : state_dict;
  bt_training_stats : TrainingStats;
  bt_deepspeed_enable : bool;
  bt_fs : gmap string file;
}.

Definition set_model (m : Model) (t : BaseTrainer) : BaseTrainer :=
  {| bt_model := m; bt_optimizer := bt_optimizer t;
     bt_scheduler := bt_scheduler t;
     bt_training_stats := bt_training_stats t;
     bt_deepspeed_enable := bt_deepspeed_enable t; bt_fs := bt_fs t |}.

Definition set_optimizer (sd : state_dict) (t : BaseTrainer) : BaseTrainer :=
  {| bt_model := bt_model t; bt_optimizer := sd;
     bt_scheduler := bt_scheduler t;
     bt_training_stats := bt_training_stats t;
     bt_deepspeed_enable := bt_deepspeed_enable t; bt_fs := bt_fs t |}.

Definition set_scheduler (sd : state_dict) (t : BaseTrainer) : BaseTrainer :=
  {| bt_model := bt_model t; bt_optimizer := bt_optimizer t;
     bt_scheduler := sd;
     bt_training_stats := bt_training_stats t;
     bt_deepspeed_enable := bt_deepspeed_enable t; bt_fs := bt_fs t |}.

Definition set_training_stats (s : TrainingStats) (t : BaseTrainer) : BaseTrainer :=
  {| bt_model := bt_model t; bt_optimizer := bt_optimizer t;
     bt_scheduler := bt_scheduler t;
     bt_training_stats := s;
     bt_deepspeed_enable := bt_deepspeed_enable t; bt_fs := bt_fs t |}.

Definition set_fs (fs : gmap string file) (t : BaseTrainer) : BaseTrainer :=
  {| bt_model := bt_model t; bt_optimizer := bt_optimizer t;
     bt_scheduler := bt_scheduler t;
     bt_training_stats := bt_training_stats t;
     bt_deepspeed_enable := bt_deepspeed_enable t; bt_fs := fs |}.

(** [d[key]] on a mapping. *)
Definition dict_get (d : gmap string pyval) (key : string) : result pyval :=
  match d !! key with
  | Some v => Ok v
  | None => Raise (KeyError key)
  end.

(** [key in d] *)
Definition dict_has (d : gmap string pyval) (key : string) : bool :=
  bool_decide (is_Some (d !! key)).

(** [load_state_dict(v)] needs a state mapping. *)
Definition as_state_dict (v : pyval) : result state_dict :=
  match v with
  | PStateDict sd => Ok sd
  | _ => Raise (TypeError "state_dict expected")
  end.

Definition as_stats (v : pyval) : result TrainingStats :=
  match v with
  | PStats s => Ok s
  | _ => Raise (TypeError "TrainingStats expected")
  end.

(** The declared return type [Tuple[int, int]], which beartype enforces. *)
Definition as_int (v : pyval) : result Z :=
  match v with
  | PInt n => Ok n
  | _ => Raise (TypeError "int expected")
  end.

(** [v != flag] for a Python bool [flag]; an int compares by value. *)
Definition py_ne_bool (v : pyval) (flag : bool) : bool :=
  match v with
  | PBool b => negb (Bool.eqb b flag)
  | PInt n => negb (n =? (if flag then 1 else 0))%Z
  | _ => true
  end.

(** [if key in d: if d[key] != flag: ...]: the saved flag is there and
    differs from the configured one. *)
Definition flag_differs (d : gmap string pyval) (key : string) (flag : bool)
  : bool :=
  match d !! key with
  | Some v => py_ne_bool v flag
  | None => false
  end.

(** [torch.load(path)] *)
Definition torch_load (f : option file) : result (gmap string pyval) :=
  match f with
  | Some (Pickle d) => Ok d
  | Some (Garbage _) => Raise (UnpicklingError "invalid load key")
  | Some (EngineDir _ _) => Raise (OSError "Is a directory")
  | None => Raise (OSError "No such file or directory")
  end.

(** [os.remove(path)] and [shutil.rmtree(path)] on an existing path. *)
Definition os_remove (path : string) : M BaseTrainer unit :=
  t ← mget;
  match bt_fs t !! path with
  | Some (EngineDir _ _) => mraise (OSError "Is a directory")
  | Some _ => mmodify (set_fs (delete path (bt_fs t)))
  | None => mraise (OSError "No such file or directory")
  end.

Definition shutil_rmtree (path : string) : M BaseTrainer unit :=
  t ← mget;
  match bt_fs t !! path with
  | Some (EngineDir _ _) => mmodify (set_fs (delete path (bt_fs t)))
  | Some _ => mraise (OSError "Not a directory")
  | None => mraise (OSError "No such file or directory")
  end.

(** [self.model_engine.save_checkpoint(path, client_state=...)] and
    [self.model_engine.load_checkpoint(path)] of an engine that
    [setup_deepspeed] has built ([BaseTrainer.__init__] leaves
    [self.model_engine] at [None] until then): the engine saves and
    restores model, optimizer and scheduler itself. *)
Definition engine_save (path : string) (client_state : gmap string pyval)
  : M BaseTrainer unit :=
  mmodify (fun t =>
    set_fs (<[path := EngineDir (bt_model t, bt_optimizer t, bt_scheduler t)
                                client_state]> (bt_fs t)) t).

Definition engine_load (path : string) : M BaseTrainer (gmap string pyval) :=
  t ← mget;
  match bt_fs t !! path with
  | Some (EngineDir (m, o, s) client_state) =>
      mmodify (fun t => set_model m (set_optimizer o (set_scheduler s t)));;
      mret client_state
  | _ => mraise (OSError "unable to load the checkpoint")
  end.

Definition opt_int (n : option Z) : pyval :=
  match n with
  | Some n => PInt n
  | None => PNone
  end.

Section Checkpoint.

(** [ModelLoader.get_model_path], as the path it returns for a checkpoint of
    the given epoch and step, and [ModelLoader.check_model_path], as the
    path of the latest checkpoint it finds, if any (model_loader.py). *)
Variable get_model_path : Z -> option Z -> Z -> option Z -> string.
Variable check_model_path : gmap string file -> option string.

(** [BaseTrainer.save_checkpoint] *)
Definition save_checkpoint (current_epoch max_epochs : Z)
    (current_step max_steps : option Z) : M BaseTrainer unit :=
  let path := get_model_path current_epoch current_step max_epochs max_steps in
  t ← mget;
  (if bool_decide (is_Some (bt_fs t !! path)) then
     if bt_deepspeed_enable t then shutil_rmtree path else os_remove path
   else mret tt);;
  t ← mget;
  if bt_deepspeed_enable t then
    let client_state : gmap string pyval :=
      match current_step with
      | None => {[ "episode" := PInt current_epoch ]}
      | Some step =>
          <["epoch" := PInt current_epoch]> {[ "step" := PInt step ]}
      end in
    engine_save path client_state
  else
    match bt_model t with
    | ActorCriticModel actor_net critic_net =>
        mmodify (set_fs (<[path := Pickle (
          <["model" := PStateDict (net_state actor_net)]> (
          <["critic" := PStateDict (net_state critic_net)]> (
          <["optimizer" := PStateDict (bt_scheduler t)]> (
          <["scheduler" := PStateDict (bt_optimizer t)]> (
          <["training_stats" := PStats (bt_training_stats t)]> (
          <["episode" := PInt current_epoch]> (
          <["lora_peft" := PBool (is_lora_peft_applied actor_net)]> (
          {[ "critic_lora_peft" :=
               PBool (is_lora_peft_applied critic_net) ]}))))))))]>
          (bt_fs t)))
    | SingleModel net =>
        mmodify (set_fs (<[path := Pickle (
          <["model" := PStateDict (net_state net)]> (
          <["optimizer" := PStateDict (bt_optimizer t)]> (
          <["scheduler" := PStateDict (bt_scheduler t)]> (
          <["training_stats" := PStats (bt_training_stats t)]> (
          <["epoch" := PInt current_epoch]> (
          <["step" := opt_int current_step]> (
          {[ "lora_peft" := PBool (is_lora_peft_applied net) ]})))))))]>
          (bt_fs t)))
    | ModelUnset => mraise (AttributeError "model")
    end.

Definition with_state (sd : state_dict) (n : Net) : Net :=
  {| net_state := sd; is_lora_peft_applied := is_lora_peft_applied n |}.

(** The branch of [load_checkpoint] that follows a successful
    [torch.load]. *)
Definition restore (checkpoint : gmap string pyval) : M BaseTrainer (Z * Z) :=
  o ← mlift (dict_get checkpoint "optimizer" ≫= as_state_dict);
  mmodify (set_optimizer o);;
  s ← mlift (dict_get checkpoint "scheduler" ≫= as_state_dict);
  mmodify (set_scheduler s);;
  t ← mget;
  match bt_model t with
  | ActorCriticModel actor_net critic_net =>
      if flag_differs checkpoint "lora_peft" (is_lora_peft_applied actor_net)
      then mret (0, 0)%Z
      else
        if flag_differs checkpoint "critic_lora_peft"
             (is_lora_peft_applied critic_net)
        then mret (0, 0)%Z
        else
          a ← mlift (dict_get checkpoint "model" ≫= as_state_dict);
          mmodify (set_model
                     (ActorCriticModel (with_state a actor_net) critic_net));;
          c ← mlift (dict_get checkpoint "critic" ≫= as_state_dict);
          mmodify (set_model
                     (ActorCriticModel (with_state a actor_net)
                                       (with_state c critic_net)));;
          episode ← mlift (dict_get checkpoint "episode" ≫= as_int);
          mret (episode, 0%Z)
  | SingleModel net =>
      if flag_differs checkpoint "lora_peft" (is_lora_peft_applied net)
      then mret (0, 0)%Z
      else
        m ← mlift (dict_get checkpoint "model" ≫= as_state_dict);
        mmodify (set_model (SingleModel (with_state m net)));;
        st ← mlift (dict_get checkpoint "training_stats" ≫= as_stats);
        mmodify (set_training_stats st);;
        epoch ← mlift (dict_get checkpoint "epoch" ≫= as_int);
        step ← mlift (dict_get checkpoint "step" ≫= as_int);
        mret (epoch, (step + 1)%Z)
  | ModelUnset => mraise (AttributeError "model")
  end.

(** [BaseTrainer.load_checkpoint] *)
Definition load_checkpoint : M BaseTrainer (Z * Z) :=
  t ← mget;
  match check_model_path (bt_fs t) with
  | Some path =>
      if bt_deepspeed_enable t then
        loaded ← try_except (Some <$> engine_load path) (fun _ => mret None);
        match loaded with
        | None => mret (0, 0)%Z
        | Some client_state =>
            if dict_has client_state "episode" then
              episode ← mlift (dict_get client_state "episode" ≫= as_int);
              mret (episode, 0%Z)
            else
              epoch ← mlift (dict_get client_state "epoch" ≫= as_int);
              step ← mlift (dict_get client_state "step" ≫= as_int);
              mret (epoch, step)
        end
      else
        loaded ← try_except
                   (Some <$> mlift (torch_load (bt_fs t !! path)))
                   (fun _ => mret None);
        match loaded with
        | None => mret (0, 0)%Z
        | Some checkpoint => restore checkpoint
        end
  | None => mret (0, 0)%Z
  end.

End Checkpoint.

(* ================================================================== *)
(** ** Vocabulary of the statements *)

(** A tensor of shape [B, L]. *)
Definition rect {A} (B L : nat) (t : list (list A)) : Prop :=
  length t = B /\ Forall (fun r => length r = L) t.

(** The entry at row [b], column [j]. *)
Definition entry {A} (t : list (list A)) (b j : nat) : option A :=
  t !! b ≫= (.!! j).

(** The value loss of one example in the words of the specification: the
    current value clipped toward the old value within [clip] on either
    side, the squared errors of the clipped and of the unclipped value
    against the target reward, and the larger of the two. *)
Definition spec_clip_toward (new_value old_value clip : Qc) : Qc :=
  if bool_decide (old_value + clip < new_value) then old_value + clip
  else if bool_decide (new_value < old_value - clip) then old_value - clip
  else new_value.

Definition spec_value_loss_example (clip old_value new_value target : tfloat)
  : tfloat :=
  match clip, old_value, new_value, target with
  | Fin e, Fin o, Fin v, Fin r =>
      Fin (Qc_max ((spec_clip_toward v o e - r) ^ 2) ((v - r) ^ 2))
  | _, _, _, _ => NaN
  end.

(** The advantage of the branch for different model families in the words
    of the specification: per record, the final reward minus the last old
    value estimate. *)
Definition spec_advantage_other_family (old_values rewards : tensor2)
  : result tensor1 :=
  final_reward ← last_column rewards;
  last_old_value ← last_column old_values;
  op1 tsub final_reward last_old_value.

(* ================================================================== *)
(** ** Example data *)

Definition ex_catalog : list string :=
  ["gpt2"; "gpt2-large"; "facebook/opt-125m"; "facebook/opt-1.3b"].

Definition ex_trainer_config (deepspeed accelerate : bool) : ConfigTrainer :=
  {| epochs := 1;
     actor_eps_clip := frac 1 5;
     critic_eps_clip := frac 1 5;
     beta_s := frac 1 100;
     batch_size := 1;
     gamma_discounted := frac 99 100;
     deepspeed_enable := deepspeed;
     accelerate_enable := accelerate |}.

(** An actor from the catalog with a critic outside it: different families. *)
Definition ex_config (deepspeed accelerate : bool) : Config :=
  {| actor := {| model := "gpt2" |};
     critic := {| model := "llama-7B" |};
     reward := {| model := "gpt2" |};
     trainer := ex_trainer_config deepspeed accelerate |}.

(** A mini-batch of one record with two generated tokens. *)
Definition ex_batch : Batch :=
  {| b_states_actor := [[11; 12]];
     b_old_actions := [[13; 14]];
     b_old_values := [[fin 0; fin 2]];
     b_rewards := [[fin 1; fin 5]];
     b_old_actions_log_probs := [[fin 0; fin 0]];
     b_sequences_actor := [[11; 12; 13; 14]];
     b_sequences_mask_actor := [[1; 1; 1; 1]];
     b_sequences_critic := [[11; 12; 13; 14]];
     b_sequences_mask_critic := [[1; 1; 1; 1]];
     b_action_len_actor := [2%nat];
     b_action_len_critic := [2%nat] |}%Z.

(** Stand-ins for the networks: two-word vocabularies, constant outputs, and
    a switch that makes the output not-a-number. *)
Definition ex_actor_forward (nan : bool) (w : unit) (sequences mask : tokens)
  : tensor3 :=
  map (map (fun _ => [if nan then NaN else fin 1; fin 0])) sequences.

Definition ex_critic_forward (nan : bool) (w : unit) (sequences mask : tokens)
  : tensor2 :=
  map (map (fun _ => if nan then NaN else fin 1)) sequences.

Definition ex_apply_event (b : Batch) (ev : event) (w : unit) : unit := w.

Definition ex_stats : TrainingStats :=
  {| training_loss := []; training_accuracy := []; value_loss := [];
     validation_loss := []; validation_accuracy := [] |}.

Definition ex_state : Trainer unit :=
  {| weights := tt; calls := []; stats := ex_stats |}.

(** The record that the loader collates into [ex_batch]. *)
Definition ex_memory : Memory :=
  {| states_actor := [11; 12];
     actions := [13; 14];
     values := [fin 0; fin 2];
     rewards := [fin 1; fin 5];
     actions_log_probs := [fin 0; fin 0];
     sequences_actor := [11; 12; 13; 14];
     sequences_mask_actor := [1; 1; 1; 1];
     sequences_critic := [11; 12; 13; 14];
     sequences_mask_critic := [1; 1; 1; 1];
     action_len_actor := 2%nat;
     action_len_critic := 2%nat |}%Z.

(** [learn_step] with the stand-ins; the identity stands for exp, log and
    sqrt. *)
Definition ex_learn_step (actor_nan critic_nan deepspeed accelerate : bool)
  : M (Trainer unit) unit :=
  learn_step (fun x => x) (fun x => x) (fun x => x) ex_catalog unit
    (ex_actor_forward actor_nan) (ex_critic_forward critic_nan)
    ex_apply_event (ex_config deepspeed accelerate) ex_batch.

Definition ex_learn_batches (actor_nan critic_nan : bool)
  : list (list Memory) -> M (Trainer unit) unit :=
  learn_batches (fun x => x) (fun x => x) (fun x => x) ex_catalog unit
    (ex_actor_forward actor_nan) (ex_critic_forward critic_nan)
    ex_apply_event (ex_config false false).

Definition ex_learn_epochs (actor_nan critic_nan : bool)
  : nat -> list (list Memory) -> M (Trainer unit) unit :=
  learn_epochs (fun x => x) (fun x => x) (fun x => x) ex_catalog unit
    (ex_actor_forward actor_nan) (ex_critic_forward critic_nan)
    ex_apply_event (ex_config false false).

(** Two toy tokenizers: one token per character, and one token per pair of
    characters.  Both pad on the right with id 0. *)
Fixpoint char_encode (s : string) : list Z :=
  match s with
  | EmptyString => []
  | String c s' => Z.of_nat (nat_of_ascii c) :: char_encode s'
  end.

Fixpoint pair_encode (s : string) : list Z :=
  match s with
  | EmptyString => []
  | String c EmptyString => [Z.of_nat (nat_of_ascii c)]
  | String c1 (String c2 s') =>
      (256 * Z.of_nat (nat_of_ascii c1) + Z.of_nat (nat_of_ascii c2))%Z
      :: pair_encode s'
  end.

Definition pad_batch (rows : tokens) : tokens * tokens :=
  let m := foldr Nat.max 0%nat (map length rows) in
  (map (fun r => r ++ replicate (m - length r) 0%Z) rows,
   map (fun r => replicate (length r) 1%Z ++ replicate (m - length r) 0%Z) rows).

Definition char_decode (ids : list Z) : string :=
  foldr (fun id acc =>
           if (id =? 0)%Z then "<pad>" +:+ acc
           else if (id =? 1)%Z then "</s>" +:+ acc
           else String (ascii_of_nat (Z.to_nat id)) acc)
        EmptyString ids.

Definition ex_char_tokenizer : Tokenizer :=
  {| tok_call := fun texts => pad_batch (map char_encode texts);
     tok_decode := char_decode;
     pad_token := "<pad>";
     eos_token := "</s>";
     pad_token_id := 0 |}.

Definition ex_pair_tokenizer : Tokenizer :=
  {| tok_call := fun texts => pad_batch (map pair_encode texts);
     tok_decode := fun _ => EmptyString;
     pad_token := "<pad>";
     eos_token := "</s>";
     pad_token_id := 0 |}.

(** An actor that completes every prompt with the two characters "ij". *)
Definition ex_actor_generate (w : unit) (states mask : tokens) : tokens * tokens :=
  (map (fun _ => char_encode "ij") states,
   map (fun s => s ++ char_encode "ij") states).

Definition ex_reward_forward (sequences mask : tokens) : tensor2 :=
  map (map (fun _ => fin 1)) sequences.

(** One timestep of the rollout with the stand-ins: the actor reads
    characters, the critic pairs of characters. *)
Definition ex_rollout (inputs : list string) : result (list Memory) :=
  rollout (fun x => x) (fun x => x) ex_catalog unit
    (ex_actor_forward false) (ex_critic_forward false)
    ex_actor_generate ex_reward_forward
    ex_char_tokenizer ex_pair_tokenizer ex_char_tokenizer
    (ex_config false false) tt inputs.

(** A checkpoint directory with one slot, and trainers to save and load. *)
Definition ex_get_model_path (current_epoch : Z) (current_step : option Z)
    (max_epochs : Z) (max_steps : option Z) : string :=
  "checkpoint.pt".

Definition ex_check_model_path (fs : gmap string file) : option string :=
  match fs !! "checkpoint.pt" with
  | Some _ => Some "checkpoint.pt"
  | None => None
  end.

Definition ex_net (weight : Z) (lora : bool) : Net :=
  {| net_state := [("weight", weight)]; is_lora_peft_applied := lora |}.

Definition ex_trainer (m : Model) (optimizer_state scheduler_state : Z)
    (fs : gmap string file) : BaseTrainer :=
  {| bt_model := m;
     bt_optimizer := [("exp_avg", optimizer_state)];
     bt_scheduler := [("last_epoch", scheduler_state)];
     bt_training_stats := ex_stats;
     bt_deepspeed_enable := false;
     bt_fs := fs |}.

(** A well-formed checkpoint of an actor-critic trainer, written without
    low-rank adaptation on either model. *)
Definition ex_checkpoint : gmap string pyval :=
  <["model" := PStateDict [("weight", 10%Z)]]> (
  <["critic" := PStateDict [("weight", 20%Z)]]> (
  <["optimizer" := PStateDict [("exp_avg", 30%Z)]]> (
  <["scheduler" := PStateDict [("last_epoch", 40%Z)]]> (
  <["training_stats" := PStats ex_stats]> (
  <["episode" := PInt 7%Z]> (
  <["lora_peft" := PBool false]> (
  {[ "critic_lora_peft" := PBool false ]}))))))).

(** The discounted return of a reward series by the usual backward
    recursion: the first reward plus [gamma] times the return of the rest. *)
Definition discounted_return (gamma : Qc) (rs : list Qc) : Qc :=
  foldr (fun r acc => r + gamma * acc) 0 rs.

(** A trainer operation that leaves the file system and the DeepSpeed flag
    as they are, whatever it returns. *)
Definition keeps_files {A} (m : M BaseTrainer A) : Prop :=
  forall t,
    bt_fs (snd (m t)) = bt_fs t
    /\ bt_deepspeed_enable (snd (m t)) = bt_deepspeed_enable t.

(** The trainer after [save_checkpoint] at epoch 5 of 10, step [step]. *)
Definition ex_saved (t : BaseTrainer) (step : option Z) : BaseTrainer :=
  snd (save_checkpoint ex_get_model_path 5 10 step (Some 9%Z) t).

(* ================================================================== *)
(** ** base_model.py: BaseModel.save and BaseModel.load *)

(** The class of [self.config] of a wrapped model. *)
Inductive model_role : Type :=
| RoleActor
| RoleReward
| RoleCritic.

(** A wrapped model: the weights of the language model, the weights of the
    scoring head (reward and critic only; unused for an actor) and
    [is_lora_peft_applied]. *)
Record BaseModel : Type := {
  bm_role : model_role;
  bm_model : state_dict;
  bm_head : state_dict;
  bm_lora : bool;
}.

(** A wrapped model and the file system it is saved to. *)
Record ModelWorld : Type := {
  mw_self : BaseModel;
  mw_fs : gmap string file;
}.

Definition has_head (r : model_role) : bool :=
  match r with
  | RoleActor => false
  | RoleReward | RoleCritic => true
  end.

(** The mapping that [save] writes for a wrapped model. *)
Definition model_dict_of (b : BaseModel) : gmap string pyval :=
  if has_head (bm_role b) then
    <["model" := PStateDict (bm_model b)]> (
    <["head" := PStateDict (bm_head b)]> (
    {[ "lora_peft" := PBool (bm_lora b) ]}))
  else
    <["model" := PStateDict (bm_model b)]> (
    {[ "lora_peft" := PBool (bm_lora b) ]}).

Section ModelFiles.

(** [ModelLoader.get_model_path(config, is_checkpoint=False)] as the path it
    returns, and [ModelLoader.check_model_path(config, is_checkpoint=False)]
    as the path of the saved model it finds, if any (model_loader.py). *)
Variable model_path : string.
Variable find_model : gmap string file -> option string.

(** [self.logger.error(kind, message)] (utils.py), whose result is raised:
    the exception it gives for the exception class and the message. *)
Variable logger_error : (string -> exn) -> string -> exn.

(** [BaseModel.save] for an actor, a reward or a critic model. *)
Definition save : M ModelWorld unit :=
  mmodify (fun w =>
    {| mw_self := mw_self w;
       mw_fs := <[model_path := Pickle (model_dict_of (mw_self w))]> (mw_fs w) |}).

(** [BaseModel.load] for an actor, a reward or a critic model.
    [load_state_dict] is taken on a mapping with the keys of the module it
    is loaded into, as a file saved by a model of the same class gives;
    torch's check of the keys is not modelled. *)
Definition load : M ModelWorld unit :=
  w ← mget;
  match find_model (mw_fs w) with
  | None => mret tt
  | Some path =>
      model_dict ← mlift (torch_load (mw_fs w !! path));
      if flag_differs model_dict "lora_peft" (bm_lora (mw_self w)) then
        mraise (logger_error ValueError
                  "The model to load is not compatible with the current model.")
      else
        m ← mlift (dict_get model_dict "model" ≫= as_state_dict);
        mmodify (fun w =>
          {| mw_self := {| bm_role := bm_role (mw_self w); bm_model := m;
                           bm_head := bm_head (mw_self w);
                           bm_lora := bm_lora (mw_self w) |};
             mw_fs := mw_fs w |});;
        if has_head (bm_role (mw_self w)) then
          h ← mlift (dict_get model_dict "head" ≫= as_state_dict);
          mmodify (fun w =>
            {| mw_self := {| bm_role := bm_role (mw_self w);
                             bm_model := bm_model (mw_self w);
                             bm_head := h;
                             bm_lora := bm_lora (mw_self w) |};
               mw_fs := mw_fs w |})
        else mret tt
  end.

End ModelFiles.

(** [BaseModel.save] of the actor-critic composite: the actor goes to the
    path of the composite's configuration, the critic, with its head, to the
    path of the critic's configuration. *)
Definition actorcritic_save (actor_rl_path critic_path : string)
    (actor_model critic_model : BaseModel) (fs : gmap string file)
  : gmap string file :=
  let fs :=
    <[actor_rl_path :=
        Pickle (<["model" := PStateDict (bm_model actor_model)]> (
                {[ "lora_peft" := PBool (bm_lora actor_model) ]}))]> fs in
  <[critic_path :=
      Pickle (<["model" := PStateDict (bm_model critic_model)]> (
              <["head" := PStateDict (bm_head critic_model)]> (
              {[ "lora_peft" := PBool (bm_lora critic_model) ]})))]> fs.

(* ================================================================== *)
(** ** base_model.py: BaseTrainer.__init__, the backend flags *)

(** The checks of [BaseTrainer.__init__] on the two backend flags;
    [path_exists] is [os.path.exists], [logger_error] is
    [self.logger.error] (utils.py), whose result is raised. *)
Definition init_flags (logger_error : (string -> exn) -> string -> exn)
    (accelerate deepspeed : bool)
    (deepspeed_config_path : option string) (path_exists : string -> bool)
  : result unit :=
  if accelerate && deepspeed then
    Raise (logger_error ValueError
             "Both DeepSpeed and Accelerate are enabledPlease choose one of them.")
  else if deepspeed then
    match deepspeed_config_path with
    | None =>
        Raise (logger_error ValueError
                 "DeepSpeed config path is None, but deepspeed is enabled")
    | Some p =>
        if path_exists p then Ok tt
        else Raise (logger_error ValueError
                      "DeepSpeed config path does not exist")
    end
  else Ok tt.

(* ================================================================== *)
(** ** reward.py: RewardModel.get_reward *)

(** [RewardModel.get_reward]; [reward_forward] is [RewardModel.forward]. *)
Definition get_reward (max_sequence_length : nat)
    (reward_forward : tokens -> tokens -> tensor2)
    (output_sequence output_sequence_mask : tokens) : result tensor1 :=
  if (max_sequence_length <? shape1 output_sequence)%nat then
    Raise (ValueError "Output sequence is too long")
  else
    let rewards := reward_forward output_sequence output_sequence_mask in
    last_column rewards.

(** [RewardDataset.__len__] *)
Definition dataset_len (data : list reward_record) : nat := length data.

(** [l[idx]] for a Python int: a negative index counts from the end. *)
Definition py_getitem {A} (l : list A) (idx : Z) : result A :=
  let n := Z.of_nat (length l) in
  if (0 <=? idx)%Z then py_index l (Z.to_nat idx)
  else if (- n <=? idx)%Z then py_index l (Z.to_nat (n + idx))
  else Raise (IndexError "list index out of range").

(** [RewardDataset.__getitem__] at any Python int, for records that hold
    the three keys and a score that is a number or null. *)
Definition getitem_int (data : list reward_record) (idx : Z)
  : result (string * Qc) :=
  rec ← py_getitem data idx;
  let user_input := user_input rec in
  let completion := completion rec in
  score ← (if truthy (score rec) then py_float (score rec)
           else Ok (Q2Qc (5 # 2)));
  Ok (user_input +:+ completion, score).

(** A logger whose [error] gives the exception of the class it is given. *)
Definition ex_logger_error (kind : string -> exn) (message : string) : exn :=
  kind message.

Definition ex_model (role : model_role) (weight head : Z) (lora : bool)
  : BaseModel :=
  {| bm_role := role; bm_model := [("weight", weight)];
     bm_head := [("head", head)]; bm_lora := lora |}.

Definition ex_find_model (fs : gmap string file) : option string :=
  match fs !! "model.pt" with
  | Some _ => Some "model.pt"
  | None => None
  end.

(* ================================================================== *)
(** * Properties *)

(** ** Strings and the family check *)

Lemma str_split_cons (c : ascii) (s : string) :
  exists h t, str_split c s = h :: t.
Proof.
  induction s as [|a s IH]; simpl.
  - eauto.
  - destruct (Ascii.eqb a c); [eauto|].
    destruct IH as (h & t & ->). eauto.
Qed.

Lemma str_split_two (c : ascii) (s : string) :
  str_contains c s = true -> exists h1 h2 t, str_split c s = h1 :: h2 :: t.
Proof.
  induction s as [|a s IH]; simpl; [discriminate|].
  destruct (Ascii.eqb a c).
  - intros _. destruct (str_split_cons c s) as (h & t & ->). eauto.
  - intros H. destruct (IH H) as (h1 & h2 & t & ->). eauto.
Qed.

Lemma strip_namespace_total (name : string) :
  exists n, strip_namespace name = Ok n.
Proof.
  unfold strip_namespace.
  destruct (str_contains "/" name) eqn:E; [|eauto].
  destruct (str_split_two _ _ E) as (h1 & h2 & t & ->).
  unfold py_index. simpl. eauto.
Qed.

Lemma base_name_total (name : string) :
  exists b, py_index (str_split "-" name) 0 = Ok b.
Proof.
  destruct (str_split_cons "-" name) as (h & t & ->).
  unfold py_index. simpl. eauto.
Qed.

(** The family check never raises. *)
Lemma check_model_family_total (hf_models : list string) (a b : ConfigModel) :
  exists r, check_model_family hf_models a b = Ok r.
Proof.
  unfold check_model_family.
  destruct (in_hf_models hf_models (model a)),
           (in_hf_models hf_models (model b)); simpl; eauto.
  destruct (strip_namespace_total (model a)) as [na ->].
  destruct (strip_namespace_total (model b)) as [nb ->].
  cbn.
  destruct (base_name_total na) as [ba ->].
  destruct (base_name_total nb) as [bb ->].
  cbn. eauto.
Qed.

(** C9. [check_model_family] is symmetric: for all model configurations
    [a] and [b] and whatever the catalog, the check on [(a, b)] returns
    what the check on [(b, a)] returns. *)
Theorem check_model_family_symmetric (hf_models : list string)
    (a b : ConfigModel) :
  check_model_family hf_models a b = check_model_family hf_models b a.
Proof.
  unfold check_model_family.
  destruct (in_hf_models hf_models (model a)),
           (in_hf_models hf_models (model b)); simpl; try reflexivity.
  destruct (strip_namespace_total (model a)) as [na ->].
  destruct (strip_namespace_total (model b)) as [nb ->].
  cbn.
  destruct (base_name_total na) as [ba ->].
  destruct (base_name_total nb) as [bb ->].
  cbn. f_equal.
  apply bool_decide_ext. split; congruence.
Qed.

(** ** Rationals and tensors *)

Ltac qc_to_q :=
  repeat (progress (unfold Qcle, Qclt, Qcminus, Qcplus, Qcopp, Qcmult, Q2Qc in *;
                    cbn [this] in *));
  rewrite ?Qred_correct in *.

(** Closed equations between tensors of rationals: compute, then compare
    the rationals by their values. *)
Ltac qc_eq :=
  match goal with
  | |- @eq Qc _ _ => apply Qc_is_canon; vm_compute; reflexivity
  end.

Ltac tensor_eq :=
  vm_compute; repeat first [ qc_eq | reflexivity | progress f_equal ].

Lemma clamp_is_clip_toward (v o e : Qc) :
  0 ≤ e -> o + Qc_min (Qc_max (v - o) (- e)) e = spec_clip_toward v o e.
Proof.
  intros He. unfold Qc_min, Qc_max, spec_clip_toward.
  repeat case_bool_decide; apply Qc_is_canon; qc_to_q; lra.
Qed.

(** One entry of the value loss as the code computes it. *)
Lemma value_loss_entry (e : Qc) (v o r : tfloat) :
  0 ≤ e ->
  tmax (tpow (tsub (tadd o (tclamp (tsub v o) (tneg (Fin e)) (Fin e))) r) 2)
       (tpow (tsub v r) 2)
  = spec_value_loss_example (Fin e) o v r.
Proof.
  intros He. destruct v as [v|], o as [o|], r as [r|]; try reflexivity.
  cbn. rewrite clamp_is_clip_toward by assumption. reflexivity.
Qed.

Lemma rmap2_pure {A B C} (f : A -> B -> C) (l1 : list A) (l2 : list B) :
  rmap2 (fun x y => Ok (f x y)) l1 l2 = Ok (zip_with f l1 l2).
Proof.
  revert l2. induction l1 as [|a l1 IH]; intros [|b l2]; simpl; try reflexivity.
  rewrite IH. reflexivity.
Qed.

Lemma op1_same_length (f : tfloat -> tfloat -> tfloat) (a b : tensor1) :
  length a = length b -> op1 f a b = Ok (zip_with f a b).
Proof.
  intros H. unfold op1, bcast. rewrite H, Nat.eqb_refl. apply rmap2_pure.
Qed.

Lemma rmap2_op1 (f : tfloat -> tfloat -> tfloat) (L : nat) (a b : tensor2) :
  Forall (fun r => length r = L) a -> Forall (fun r => length r = L) b ->
  rmap2 (op1 f) a b = Ok (zip_with (zip_with f) a b).
Proof.
  intros Ha. revert b. induction Ha as [|r a Hr Ha IH]; intros b Hb.
  - destruct b; reflexivity.
  - destruct Hb as [|s b Hs Hb]; [reflexivity|]. simpl.
    rewrite op1_same_length by congruence. rewrite IH by assumption.
    reflexivity.
Qed.

Lemma rect_zip_with {A B C} (f : A -> B -> C) (n L : nat)
    (a : list (list A)) (b : list (list B)) :
  rect n L a -> rect n L b -> rect n L (zip_with (zip_with f) a b).
Proof.
  intros [Hla Ha] [Hlb Hb]. split.
  - rewrite length_zip_with. lia.
  - clear Hla Hlb. revert b Hb. induction Ha as [|r a Hr Ha IH]; intros b Hb.
    + constructor.
    + destruct Hb as [|s b Hs Hb]; [constructor|]. simpl. constructor.
      * rewrite length_zip_with. lia.
      * apply IH. assumption.
Qed.

Lemma op2_rect (f : tfloat -> tfloat -> tfloat) (n L : nat) (a b : tensor2) :
  rect n L a -> rect n L b -> op2 f a b = Ok (zip_with (zip_with f) a b).
Proof.
  intros [Hla Ha] [Hlb Hb]. unfold op2, bcast.
  replace (length a =? length b)%nat with true
    by (symmetry; apply Nat.eqb_eq; congruence).
  eapply rmap2_op1; eassumption.
Qed.

Lemma rect_map2d (f : tfloat -> tfloat) (n L : nat) (a : tensor2) :
  rect n L a -> rect n L (map2d f a).
Proof.
  intros [Hl Ha]. split.
  - unfold map2d. rewrite length_map. assumption.
  - unfold map2d. clear Hl. induction Ha as [|r a Hr Ha IH]; simpl.
    + constructor.
    + constructor; [rewrite length_map; assumption|assumption].
Qed.

Lemma entry_zip_with {A B C} (f : A -> B -> C)
    (a : list (list A)) (b : list (list B)) (i j : nat) :
  entry (zip_with (zip_with f) a b) i j
  = x ← entry a i j; y ← entry b i j; Some (f x y).
Proof.
  unfold entry. rewrite lookup_zip_with.
  destruct (a !! i) as [r|]; simpl; [|reflexivity].
  destruct (b !! i) as [s|]; simpl.
  - rewrite lookup_zip_with. reflexivity.
  - destruct (r !! j); reflexivity.
Qed.

Lemma entry_map2d (f : tfloat -> tfloat) (a : tensor2) (i j : nat) :
  entry (map2d f a) i j = f <$> entry a i j.
Proof.
  unfold entry, map2d. rewrite list_lookup_fmap.
  destruct (a !! i) as [r|]; simpl; [|reflexivity].
  apply list_lookup_fmap.
Qed.

(** ** The value loss *)

(** C8. For values, old values and target rewards of one shape, the tensor
    [torch.max(value_loss1, value_loss2)] that [learn] averages into the
    value loss holds, at every position, the larger of the squared error of
    the clipped value and the squared error of the unclipped value, the
    clipped value being the new value brought within [critic_eps_clip] of
    the old one.  For old value 0, new value 5, clip 1 and target 10 the
    clipped value is 1 and the entry is max(81, 25) = 81. *)
Theorem value_loss_per_example :
  (forall (e : Qc) (n L : nat) (values old_values rewards : tensor2),
     0 ≤ e ->
     rect n L values -> rect n L old_values -> rect n L rewards ->
     exists t,
       value_loss_elementwise (Fin e) values old_values rewards = Ok t
       /\ rect n L t
       /\ forall b j v o r,
            entry values b j = Some v ->
            entry old_values b j = Some o ->
            entry rewards b j = Some r ->
            entry t b j = Some (spec_value_loss_example (Fin e) o v r))
  /\ spec_clip_toward (Q2Qc 5) (Q2Qc 0) (Q2Qc 1) = Q2Qc 1
  /\ tadd (fin 0) (tclamp (tsub (fin 5) (fin 0)) (tneg (fin 1)) (fin 1)) = fin 1
  /\ tpow (tsub (fin 1) (fin 10)) 2 = fin 81
  /\ tpow (tsub (fin 5) (fin 10)) 2 = fin 25
  /\ value_loss_elementwise (fin 1) [[fin 5]] [[fin 0]] [[fin 10]]
     = Ok [[fin 81]].
Proof.
  split; [|repeat split; tensor_eq].
  intros e n L vs os rs He Hv Ho Hr.
  unfold value_loss_elementwise.
  rewrite (op2_rect tsub n L vs os) by assumption.
  cbn [mbind result_bind rbind].
  set (d := zip_with (zip_with tsub) vs os).
  assert (Hd : rect n L d) by (apply rect_zip_with; assumption).
  set (c := map2d _ d).
  assert (Hc : rect n L c) by (apply rect_map2d; assumption).
  rewrite (op2_rect tadd n L os c) by assumption.
  cbn [mbind result_bind rbind].
  set (cl := zip_with (zip_with tadd) os c).
  assert (Hcl : rect n L cl) by (apply rect_zip_with; assumption).
  rewrite (op2_rect tsub n L cl rs) by assumption.
  cbn [mbind result_bind rbind].
  rewrite (op2_rect tsub n L vs rs) by assumption.
  cbn [mbind result_bind rbind].
  eexists. split; [apply (op2_rect tmax n L)|split].
  - apply rect_map2d, rect_zip_with; assumption.
  - apply rect_map2d, rect_zip_with; assumption.
  - apply rect_zip_with; apply rect_map2d, rect_zip_with; assumption.
  - intros b j v o r Ev Eo Er.
    rewrite entry_zip_with, !entry_map2d, !entry_zip_with.
    subst cl c d. rewrite entry_zip_with, entry_map2d, entry_zip_with.
    rewrite Ev, Eo, Er.
    cbn -[tmax tpow tsub tadd tclamp tneg spec_value_loss_example].
    rewrite value_loss_entry by assumption. reflexivity.
Qed.

(** The statement above at the example of the specification. *)
Lemma value_loss_per_example_witness :
  exists t,
    value_loss_elementwise (Fin (Q2Qc 1)) [[fin 5]] [[fin 0]] [[fin 10]] = Ok t
    /\ rect 1 1 t
    /\ entry t 0 0 = Some (spec_value_loss_example (Fin (Q2Qc 1)) (fin 0) (fin 5) (fin 10)).
Proof.
  destruct (proj1 value_loss_per_example (Q2Qc 1) 1%nat 1%nat
              [[fin 5]] [[fin 0]] [[fin 10]]) as (t & Ht & Hr & He).
  - vm_compute. discriminate.
  - split; [reflexivity|repeat constructor].
  - split; [reflexivity|repeat constructor].
  - split; [reflexivity|repeat constructor].
  - exists t. repeat split; try assumption; try apply Hr.
    apply He; reflexivity.
Defined.

(** ** The reward dataset *)

Lemma getitem_null (data : list reward_record) (idx : nat) (u c : string) :
  data !! idx = Some {| user_input := u; completion := c; score := ScoreNull |} ->
  getitem data idx = Ok (u +:+ c, Q2Qc (5 # 2)).
Proof. intros H. unfold getitem, py_index. rewrite H. reflexivity. Qed.

Lemma getitem_truthy (data : list reward_record) (idx : nat) (rec : reward_record) :
  data !! idx = Some rec -> truthy (score rec) = true ->
  exists x, py_float (score rec) = Ok x
            /\ getitem data idx = Ok (user_input rec +:+ completion rec, x).
Proof.
  intros H T. unfold getitem, py_index. rewrite H. cbn. rewrite T.
  destruct (score rec); [discriminate| |]; cbn; eauto.
Qed.

(** C10, the code at a record whose score is the number 0: the truth test
    of [__getitem__] takes 0 for a missing score and the item carries 2.5,
    where [float(0)] is 0. *)
Theorem getitem_zero_score :
  getitem [ {| user_input := "good? "; completion := "no";
               score := ScoreInt 0 |} ] 0
  = Ok ("good? no", Q2Qc (5 # 2))
  /\ py_float (ScoreInt 0) = Ok (Q2Qc 0)
  /\ Q2Qc (5 # 2) <> Q2Qc 0.
Proof.
  repeat split; try reflexivity.
  intros H. apply (f_equal this) in H. vm_compute in H. discriminate.
Qed.

(** ** The advantage *)

Lemma rmap_pure {A B} (f : A -> B) (l : list A) :
  rmap (fun x => Ok (f x)) l = Ok (map f l).
Proof.
  induction l as [|a l IH]; simpl; [reflexivity|]. rewrite IH. reflexivity.
Qed.

(** A one-entry right operand is repeated along the row. *)
Lemma op1_scalar_right (f : tfloat -> tfloat -> tfloat) (r : tensor1) (v : tfloat) :
  op1 f r [v] = Ok (map (fun x => f x v) r).
Proof.
  unfold op1, bcast. destruct r as [|x [|y r]]; try reflexivity.
  cbn [length Nat.eqb]. apply (rmap_pure (fun a => f a v)).
Qed.

Lemma last_column_single {A} (r : list A) (x : A) :
  r !! (length r - 1)%nat = Some x -> last_column [r] = Ok [x].
Proof. intros H. unfold last_column. simpl. rewrite H. reflexivity. Qed.

(** C1, as the code has it.  When actor and critic are of different
    families, the advantage of the record of a mini-batch holds, at every
    position, the reward at that position minus the last old value
    estimate: neither the discount factor nor a mean or a standard
    deviation enters. *)
Theorem advantage_other_family
    (f_sqrt : tfloat -> tfloat) (hf_models : list string) (config : Config)
    (b : Batch) (old_values rewards : tensor1) (last_old_value : tfloat) :
  check_model_family hf_models (actor config) (critic config) = Ok false ->
  b_old_values b = [old_values] ->
  b_rewards b = [rewards] ->
  old_values !! (length old_values - 1)%nat = Some last_old_value ->
  batch_advantages f_sqrt hf_models config b
  = Ok [map (fun r => tsub r last_old_value) rewards].
Proof.
  intros Hfam Hov Hrw Hlast. unfold batch_advantages.
  rewrite Hfam, Hov, Hrw. cbn [mbind result_bind rbind advantages].
  rewrite (last_column_single _ _ Hlast). cbn [mbind result_bind rbind].
  unfold op2_1, op2, bcast. cbn [length Nat.eqb rmap2].
  rewrite op1_scalar_right. reflexivity.
Qed.

Lemma advantage_other_family_witness :
  batch_advantages (fun x => x) ex_catalog (ex_config false false) ex_batch
  = Ok [map (fun r => tsub r (fin 2)) [fin 1; fin 5]].
Proof.
  apply (advantage_other_family (fun x => x) ex_catalog (ex_config false false)
           ex_batch [fin 0; fin 2] [fin 1; fin 5] (fin 2));
    reflexivity.
Defined.

(** C1, as the specification words it, fails: with rewards 1 and 5 and old
    values 0 and 2, the final reward minus the last old value is 3, while
    the advantage the code computes is -1 at the first position. *)
Lemma advantage_other_family_counterexample :
  check_model_family ex_catalog (actor (ex_config false false))
    (critic (ex_config false false)) = Ok false
  /\ batch_advantages (fun x => x) ex_catalog (ex_config false false) ex_batch
     = Ok [[fin (-1); fin 3]]
  /\ spec_advantage_other_family (b_old_values ex_batch) (b_rewards ex_batch)
     = Ok [fin 3]
  /\ fin (-1) <> fin 3.
Proof.
  repeat split; try tensor_eq.
  intros H. inversion H.
Qed.

(** ** The learning step *)

Section LearnStep.

Variables f_exp f_log f_sqrt : tfloat -> tfloat.
Variable hf_models : list string.
Variable params : Type.
Variable actor_forward : params -> tokens -> tokens -> tensor3.
Variable critic_forward : params -> tokens -> tokens -> tensor2.
Variable apply_event : Batch -> event -> params -> params.
Variable config : Config.

Let step := learn_step f_exp f_log f_sqrt hf_models params
              actor_forward critic_forward apply_event config.
Let batches := learn_batches f_exp f_log f_sqrt hf_models params
                 actor_forward critic_forward apply_event config.
Let epochs_loop := learn_epochs f_exp f_log f_sqrt hf_models params
                     actor_forward critic_forward apply_event config.
Let policy := policy_loss f_exp f_log f_sqrt hf_models config.
Let fwd (st : Trainer params) (b : Batch) (la lc : nat) :=
  forward params actor_forward critic_forward (weights st)
    (b_sequences_actor b) (b_sequences_mask_actor b)
    (b_sequences_critic b) (b_sequences_mask_critic b) la lc.

(** A raise in the body of the loop ends the loop over the mini-batches. *)
Lemma learn_batches_raise (pre post : list (list Memory)) (g : list Memory)
    (b : Batch) (e : exn) (st st1 st2 : Trainer params) :
  batches pre st = (Ok tt, st1) ->
  collate g = Ok b ->
  step b st1 = (Raise e, st2) ->
  batches (pre ++ g :: post) st = (Raise e, st2).
Proof.
  subst batches step. revert st.
  induction pre as [|g0 pre IH]; intros st Hpre Hc Hs.
  - cbn in Hpre. injection Hpre as <-. cbn [app learn_batches].
    unfold mbind, M_bind, mbind', mlift. rewrite Hc, Hs. reflexivity.
  - cbn [app learn_batches] in *.
    unfold mbind, M_bind, mbind', mlift in *.
    destruct (collate g0) as [b0|e0]; [|discriminate].
    destruct (learn_step _ _ _ _ _ _ _ _ _ b0 st) as [[[]|e0] st0];
      [|discriminate].
    apply IH; assumption.
Qed.

(** And the loop over the epochs. *)
Lemma learn_epochs_raise (n m : nat) (groups : list (list Memory))
    (e : exn) (st st1 st2 : Trainer params) :
  epochs_loop n groups st = (Ok tt, st1) ->
  batches groups st1 = (Raise e, st2) ->
  epochs_loop (n + S m) groups st = (Raise e, st2).
Proof.
  subst epochs_loop batches. revert st.
  induction n as [|n IH]; intros st Hn Hb.
  - cbn in Hn. injection Hn as <-. cbn [Nat.add learn_epochs].
    unfold mbind, M_bind, mbind'. rewrite Hb. reflexivity.
  - cbn [Nat.add learn_epochs] in *.
    unfold mbind, M_bind, mbind' in *.
    destruct (learn_batches _ _ _ _ _ _ _ _ _ groups st) as [[[]|e0] st0];
      [|discriminate].
    apply IH; assumption.
Qed.

(** The step reads the action lengths with [.item()], so a mini-batch of
    more than one record raises before anything is computed. *)
Lemma learn_step_needs_single_record (st : Trainer params) (b : Batch) (e : exn) :
  item (b_action_len_actor b) = Raise e ->
  step b st = (Raise e, st).
Proof.
  intros H. subst step. unfold learn_step.
  unfold mbind, M_bind, mbind', mget, mlift. rewrite H. reflexivity.
Qed.

(** C7. In an iteration of the learning step, a policy loss that is
    not-a-number raises "Policy Loss is nan", and a value loss that is
    not-a-number raises "Value loss is nan"; the trainer is then as it was
    when the iteration began, so no backward pass and no optimizer step has
    been made for that loss.  The error is not handled: it ends the loop
    over the mini-batches and the loop over the epochs. *)
Theorem learn_step_nan_raises (st : Trainer params) (b : Batch) (la lc : nat)
    (actions_logits : tensor3) (values : tensor2) :
  item (b_action_len_actor b) = Ok la ->
  item (b_action_len_critic b) = Ok lc ->
  fwd st b la lc = (actions_logits, values) ->
  (forall p,
     policy actions_logits b = Ok p -> isnan p = true ->
     step b st = (Raise (ValueError "Policy Loss is nan"), st))
  /\ (forall p v,
        policy actions_logits b = Ok p -> isnan p = false ->
        value_loss_of config values b = Ok v ->
        isnan v = true ->
        step b st = (Raise (ValueError "Value loss is nan"), st))
  /\ (forall e st0 st' pre post g n m,
        batches pre st0 = (Ok tt, st) ->
        collate g = Ok b ->
        step b st = (Raise e, st') ->
        batches (pre ++ g :: post) st0 = (Raise e, st')
        /\ (forall s0, epochs_loop n (pre ++ g :: post) s0 = (Ok tt, st0) ->
              epochs_loop (n + S m) (pre ++ g :: post) s0 = (Raise e, st'))).
Proof.
  intros Hla Hlc Hfw. subst fwd. cbv beta in Hfw. repeat split.
  - intros p Hp Hnan. subst step policy. unfold learn_step.
    unfold mbind, M_bind, mbind', mget, mlift, mraise.
    rewrite Hla, Hlc, Hfw, Hp, Hnan. reflexivity.
  - intros p v Hp Hfin Hv Hnan. subst step policy. unfold learn_step.
    unfold mbind, M_bind, mbind', mget, mlift, mraise.
    rewrite Hla, Hlc, Hfw, Hp, Hfin, Hv, Hnan. reflexivity.
  - eapply learn_batches_raise; eassumption.
  - intros s0 Hs0. eapply learn_epochs_raise; [eassumption|].
    eapply learn_batches_raise; eassumption.
Qed.

(** What the backward pass calls, by training mode. *)
Lemma backward_pass_calls (b : Batch) (loss vloss : tfloat) (st : Trainer params) :
  exists st',
    backward_pass params apply_event config b loss vloss st = (Ok tt, st')
    /\ stats st' = stats st
    /\ calls st' = calls st ++
         (if deepspeed_enable (trainer config) then
            [engine_backward V_loss loss; engine_step]
          else if accelerate_enable (trainer config) then
            [optimizer_zero_grad; accelerator_backward V_loss loss;
             optimizer_step; scheduler_step]
          else
            [optimizer_zero_grad; tensor_backward V_value_loss vloss;
             optimizer_step; scheduler_step]).
Proof.
  unfold backward_pass.
  destruct (deepspeed_enable (trainer config));
    [|destruct (accelerate_enable (trainer config))];
    eexists; (split; [reflexivity|]); split; try reflexivity;
    cbn; rewrite <- ?app_assoc; reflexivity.
Qed.

End LearnStep.

Lemma learn_step_nan_raises_witness :
  ex_learn_step true false false false ex_state
  = (Raise (ValueError "Policy Loss is nan"), ex_state)
  /\ ex_learn_step false true false false ex_state
     = (Raise (ValueError "Value loss is nan"), ex_state)
  /\ ex_learn_batches true false ([] ++ [ex_memory] :: [[ex_memory]]) ex_state
     = (Raise (ValueError "Policy Loss is nan"), ex_state)
  /\ ex_learn_epochs true false (0 + 3) ([] ++ [ex_memory] :: [[ex_memory]])
       ex_state
     = (Raise (ValueError "Policy Loss is nan"), ex_state).
Proof.
  pose proof (learn_step_nan_raises (fun x => x) (fun x => x) (fun x => x)
                ex_catalog unit (ex_actor_forward true)
                (ex_critic_forward false) ex_apply_event
                (ex_config false false) ex_state ex_batch 2%nat 2%nat
                _ _ eq_refl eq_refl eq_refl) as (Hp & _ & Hloop).
  pose proof (learn_step_nan_raises (fun x => x) (fun x => x) (fun x => x)
                ex_catalog unit (ex_actor_forward false)
                (ex_critic_forward true) ex_apply_event
                (ex_config false false) ex_state ex_batch 2%nat 2%nat
                _ _ eq_refl eq_refl eq_refl) as (_ & Hv & _).
  assert (Hstep : ex_learn_step true false false false ex_state
                  = (Raise (ValueError "Policy Loss is nan"), ex_state))
    by (apply (Hp NaN); vm_compute; reflexivity).
  split; [exact Hstep|]. split.
  - eapply (Hv _ NaN); vm_compute; reflexivity.
  - destruct (Hloop (ValueError "Policy Loss is nan") ex_state ex_state
                [] [[ex_memory]] [ex_memory] 0%nat 2%nat) as [Hb He];
      [reflexivity|vm_compute; reflexivity|exact Hstep|].
    split; [exact Hb|]. apply He. reflexivity.
Defined.

(** C3, the code in the mode with neither DeepSpeed nor Accelerate: the
    backward pass is called on [value_loss], not on the sum [loss] of policy
    loss and value loss, which the two other modes pass.  In the example the
    value loss is 208/25 and the sum is another number. *)
Theorem native_mode_backward_on_value_loss :
  calls (snd (ex_learn_step false false false false ex_state))
  = [optimizer_zero_grad; tensor_backward V_value_loss (frac 208 25);
     optimizer_step; scheduler_step]
  /\ calls (snd (ex_learn_step false false true false ex_state))
     = [engine_backward V_loss (frac 26499999849 5000000000); engine_step]
  /\ calls (snd (ex_learn_step false false false true ex_state))
     = [optimizer_zero_grad;
        accelerator_backward V_loss (frac 26499999849 5000000000);
        optimizer_step; scheduler_step]
  /\ training_loss (stats (snd (ex_learn_step false false false false ex_state)))
     = [frac 26499999849 5000000000].
Proof. repeat split; tensor_eq. Qed.

(** ** The rollout *)

(** The action length that [generate] reports for the critic. *)
Lemma generate_action_len_critic
    (params : Type)
    (actor_forward : params -> tokens -> tokens -> tensor3)
    (critic_forward : params -> tokens -> tokens -> tensor2)
    (actor_generate : params -> tokens -> tokens -> tokens * tokens)
    (actor_tokenizer critic_tokenizer : Tokenizer)
    (use_same_tokenizer : bool) (w : params)
    (states_actor states_mask_actor states_critic : tokens) :
  g_action_len_critic
    (generate params actor_forward critic_forward actor_generate
       actor_tokenizer critic_tokenizer use_same_tokenizer w
       states_actor states_mask_actor states_critic)
  = if use_same_tokenizer
    then shape1 (fst (actor_generate w states_actor states_mask_actor))
    else shape1 states_critic.
Proof.
  unfold generate.
  destruct (actor_generate w states_actor states_mask_actor) as [acts seqs].
  destruct use_same_tokenizer; reflexivity.
Qed.

(** C2, the code with an actor that reads characters and a critic that
    reads pairs of characters.  The prompt "abcdefgh" is four critic tokens
    and the completion "ij" is one: the record stores 4 as
    [action_len_critic], the length of the prompt, so three of the last four
    positions of the critic sequence are prompt tokens. *)
Theorem rollout_action_len_critic_is_prompt_length :
  exists m,
    ex_rollout ["abcdefgh"] = Ok [m]
    /\ action_len_critic m = 4%nat
    /\ action_len_actor m = 2%nat
    /\ sequences_critic m = pair_encode "abcdefgh" ++ pair_encode "ij"
    /\ fst (tok_call ex_pair_tokenizer ["abcdefgh"]) = [pair_encode "abcdefgh"]
    /\ length (pair_encode "abcdefgh") = 4%nat
    /\ length (pair_encode "ij") = 1%nat
    /\ py_last_n (action_len_critic m) (sequences_critic m)
       = drop 1 (pair_encode "abcdefgh") ++ pair_encode "ij".
Proof.
  eexists. split; [vm_compute; reflexivity|].
  repeat split; vm_compute; reflexivity.
Qed.

(** ** Checkpoints *)

Section CheckpointProperties.

Variable check_model_path : gmap string file -> option string.

(** C6. When the latest checkpoint cannot be deserialized, whatever the
    exception of the loader, [load_checkpoint] returns the cursor (0, 0)
    without raising and leaves the trainer as it was; so it is with
    [torch.load], and so it is with the DeepSpeed engine when the path
    holds no engine checkpoint. *)
Theorem load_checkpoint_corrupted (t : BaseTrainer) (path : string) :
  check_model_path (bt_fs t) = Some path ->
  (forall e,
     bt_deepspeed_enable t = false ->
     torch_load (bt_fs t !! path) = Raise e ->
     load_checkpoint check_model_path t = (Ok (0, 0)%Z, t))
  /\ (bt_deepspeed_enable t = true ->
      (forall snapshot client_state,
         bt_fs t !! path <> Some (EngineDir snapshot client_state)) ->
      load_checkpoint check_model_path t = (Ok (0, 0)%Z, t)).
Proof.
  intros Hpath. split.
  - intros e Hds Hload. unfold load_checkpoint.
    unfold mbind, M_bind, mbind', mget. rewrite Hpath, Hds.
    unfold try_except, fmap, M_fmap, mbind', mlift. rewrite Hload.
    reflexivity.
  - intros Hds Hno. unfold load_checkpoint.
    unfold mbind, M_bind, mbind', mget. rewrite Hpath, Hds.
    unfold try_except, fmap, M_fmap, mbind', engine_load.
    unfold mbind, M_bind, mbind', mget.
    destruct (bt_fs t !! path) as [[d|snap cs|bytes]|] eqn:E;
      try reflexivity.
    exfalso. apply (Hno snap cs). reflexivity.
Qed.

(** After a successful [torch.load], a saved adaptation flag that differs
    from the configured one gives the cursor (0, 0), but only after the
    optimizer and the scheduler have taken the state of the checkpoint. *)
Lemma restore_flag_differs (t : BaseTrainer) (checkpoint : gmap string pyval)
    (o s : state_dict) :
  checkpoint !! "optimizer" = Some (PStateDict o) ->
  checkpoint !! "scheduler" = Some (PStateDict s) ->
  match bt_model t with
  | ActorCriticModel a c =>
      flag_differs checkpoint "lora_peft" (is_lora_peft_applied a)
      || flag_differs checkpoint "critic_lora_peft" (is_lora_peft_applied c)
  | SingleModel n =>
      flag_differs checkpoint "lora_peft" (is_lora_peft_applied n)
  | ModelUnset => false
  end = true ->
  restore checkpoint t = (Ok (0, 0)%Z, set_scheduler s (set_optimizer o t)).
Proof.
  intros Ho Hs Hflag. unfold restore, dict_get. rewrite Ho, Hs.
  unfold mbind, M_bind, mbind', mlift, mmodify, mget, mret, result_bind, rbind.
  cbn [as_state_dict bt_model set_scheduler set_optimizer].
  destruct (bt_model t) as [a c|n|].
  - destruct (flag_differs checkpoint "lora_peft" _); [reflexivity|].
    cbn in Hflag. rewrite Hflag. reflexivity.
  - rewrite Hflag. reflexivity.
  - discriminate.
Qed.

End CheckpointProperties.

Lemma load_checkpoint_corrupted_witness :
  load_checkpoint ex_check_model_path
    (ex_trainer (SingleModel (ex_net 1 false)) 3 4
       {[ "checkpoint.pt" := Garbage [0; 255; 13]%Z ]})
  = (Ok (0, 0)%Z,
     ex_trainer (SingleModel (ex_net 1 false)) 3 4
       {[ "checkpoint.pt" := Garbage [0; 255; 13]%Z ]}).
Proof.
  refine (proj1 (load_checkpoint_corrupted ex_check_model_path
                   (ex_trainer (SingleModel (ex_net 1 false)) 3 4
                      {[ "checkpoint.pt" := Garbage [0; 255; 13]%Z ]})
                   "checkpoint.pt" _)
            (UnpicklingError "invalid load key") _ _);
    vm_compute; reflexivity.
Defined.

(** C4, the code at a checkpoint written without low-rank adaptation and
    loaded by a trainer whose actor, or whose critic, has it switched on:
    the cursor is (0, 0) and the models keep their weights, but optimizer
    and scheduler now hold the state of the checkpoint (30 and 40) instead
    of their own (3 and 4). *)
Theorem load_checkpoint_flag_mismatch_keeps_loaded_optimizer :
  let fs : gmap string file := {[ "checkpoint.pt" := Pickle ex_checkpoint ]} in
  let before_actor :=
    ex_trainer (ActorCriticModel (ex_net 1 true) (ex_net 2 false)) 3 4 fs in
  let before_critic :=
    ex_trainer (ActorCriticModel (ex_net 1 false) (ex_net 2 true)) 3 4 fs in
  load_checkpoint ex_check_model_path before_actor
  = (Ok (0, 0)%Z,
     ex_trainer (ActorCriticModel (ex_net 1 true) (ex_net 2 false)) 30 40 fs)
  /\ load_checkpoint ex_check_model_path before_critic
     = (Ok (0, 0)%Z,
        ex_trainer (ActorCriticModel (ex_net 1 false) (ex_net 2 true)) 30 40 fs)
  /\ bt_optimizer before_actor
     <> bt_optimizer (snd (load_checkpoint ex_check_model_path before_actor))
  /\ bt_scheduler before_critic
     <> bt_scheduler (snd (load_checkpoint ex_check_model_path before_critic)).
Proof.
  cbv zeta. repeat split; try (vm_compute; reflexivity);
    vm_compute; discriminate.
Qed.

(** What the branch of [save_checkpoint] for a composite [self.model]
    writes under the keys "optimizer" and "scheduler", for a path that
    holds no file yet: the two states exchanged.  No trainer of the sources
    assigns such a [self.model]. *)
Lemma save_checkpoint_actor_critic_keys
    (get_model_path : Z -> option Z -> Z -> option Z -> string)
    (t : BaseTrainer) (a c : Net)
    (current_epoch max_epochs : Z) (current_step max_steps : option Z) :
  bt_model t = ActorCriticModel a c ->
  bt_deepspeed_enable t = false ->
  bt_fs t !! get_model_path current_epoch current_step max_epochs max_steps
  = None ->
  exists t' d,
    save_checkpoint get_model_path current_epoch max_epochs
      current_step max_steps t = (Ok tt, t')
    /\ bt_fs t' !! get_model_path current_epoch current_step max_epochs max_steps
       = Some (Pickle d)
    /\ d !! "optimizer" = Some (PStateDict (bt_scheduler t))
    /\ d !! "scheduler" = Some (PStateDict (bt_optimizer t)).
Proof.
  intros Hm Hds Hfree. unfold save_checkpoint.
  unfold mbind, M_bind, mbind', mget, mret, mmodify.
  rewrite Hfree. rewrite bool_decide_eq_false_2 by (intros [x Hx]; discriminate).
  rewrite Hds, Hm.
  eexists. eexists. split; [reflexivity|]. split.
  - cbn [bt_fs set_fs]. apply lookup_insert_eq.
  - split; reflexivity.
Qed.

Section CheckpointKeys.

Variable get_model_path : Z -> option Z -> Z -> option Z -> string.
Variable check_model_path : gmap string file -> option string.



End CheckpointKeys.


(* ================================================================== *)
(** * Further properties of the code *)

(** ** The family check is an equivalence *)

(** The normalized base name of a model identifier, which is always
    defined: the namespace is indexed only when there is a slash. *)
Lemma base_name_of_total (name : string) :
  exists stripped base,
    strip_namespace name = Ok stripped
    /\ py_index (str_split "-" stripped) 0 = Ok base.
Proof.
  destruct (strip_namespace_total name) as [n Hn].
  destruct (base_name_total n) as [b Hb]. eauto.
Qed.

(** X1. [check_model_family] never raises: the item [1] of
    [name.split("/")] is read only when the name holds a slash, and the
    item [0] of a split always exists.  On one and the same configuration
    the answer is [True]. *)
Theorem check_model_family_defined_and_reflexive
    (hf_models : list string) (a b : ConfigModel) :
  (exists r, check_model_family hf_models a b = Ok r)
  /\ check_model_family hf_models a a = Ok true.
Proof.
  split.
  - unfold check_model_family.
    destruct (in_hf_models hf_models (model a)),
             (in_hf_models hf_models (model b)); simpl; eauto.
    destruct (base_name_of_total (model a)) as (na & ba & -> & Ha).
    destruct (base_name_of_total (model b)) as (nb & bb & -> & Hb).
    cbn. rewrite Ha, Hb. cbn. eauto.
  - unfold check_model_family.
    destruct (in_hf_models hf_models (model a)); simpl; [|reflexivity].
    destruct (base_name_of_total (model a)) as (na & ba & -> & Ha).
    cbn. rewrite Ha. cbn. rewrite bool_decide_eq_true_2; reflexivity.
Qed.

(** X2. [check_model_family] is transitive: when [a] and [b] are of one
    family and [b] and [c] are, so are [a] and [c]. *)
Theorem check_model_family_transitive
    (hf_models : list string) (a b c : ConfigModel) :
  check_model_family hf_models a b = Ok true ->
  check_model_family hf_models b c = Ok true ->
  check_model_family hf_models a c = Ok true.
Proof.
  unfold check_model_family.
  destruct (base_name_of_total (model a)) as (na & ba & Sa & Ha).
  destruct (base_name_of_total (model b)) as (nb & bb & Sb & Hb).
  destruct (base_name_of_total (model c)) as (nc & bc & Sc & Hc).
  rewrite Sa, Sb, Sc.
  destruct (in_hf_models hf_models (model a)),
           (in_hf_models hf_models (model b)),
           (in_hf_models hf_models (model c)); simpl;
    try discriminate; try reflexivity.
  cbn. rewrite Ha, Hb, Hc. cbn.
  intros Hab Hbc. f_equal.
  injection Hab as Hab. injection Hbc as Hbc.
  apply bool_decide_eq_true in Hab. apply bool_decide_eq_true in Hbc.
  apply bool_decide_eq_true. congruence.
Qed.

Lemma check_model_family_transitive_witness :
  check_model_family ex_catalog {| model := "gpt2" |}
    {| model := "gpt2-large" |} = Ok true
  /\ check_model_family ex_catalog {| model := "facebook/opt-125m" |}
       {| model := "facebook/opt-1.3b" |} = Ok true.
Proof.
  split.
  - apply (check_model_family_transitive ex_catalog _ {| model := "gpt2" |});
      reflexivity.
  - apply (check_model_family_transitive ex_catalog _
             {| model := "facebook/opt-125m" |});
      reflexivity.
Defined.

(** ** ActorCritic.forward and the rollout *)

Lemma py_last_n_length {A} (n : nat) (l : list A) :
  length (py_last_n n l)
  = if (n =? 0)%nat then length l else Nat.min n (length l).
Proof.
  unfold py_last_n. destruct (n =? 0)%nat; [reflexivity|].
  rewrite length_drop. lia.
Qed.

Lemma py_last_n_suffix {A} (n : nat) (l : list A) :
  exists pre, l = pre ++ py_last_n n l.
Proof.
  unfold py_last_n. destruct (n =? 0)%nat.
  - exists []. reflexivity.
  - exists (take (length l - n) l). symmetry. apply take_drop.
Qed.

Lemma Forall2_map_self {A B} (f : A -> B) (P : B -> A -> Prop) (l : list A) :
  (forall x, P (f x) x) -> Forall2 P (map f l) l.
Proof. intros H. induction l; simpl; constructor; auto. Qed.

(** X3. [ActorCritic.forward] keeps, of every row of logits and of every
    row of values, a suffix: the last [action_len] positions when the row
    has that many, the whole row when it is shorter, and also the whole row
    when [action_len] is 0, since Python reads [-0:] as [0:]. *)
Theorem forward_keeps_a_suffix
    (params : Type)
    (actor_forward : params -> tokens -> tokens -> tensor3)
    (critic_forward : params -> tokens -> tokens -> tensor2)
    (w : params) (sa ma sc mc : tokens) (la lc : nat) :
  Forall2 (fun kept full =>
             length kept
             = (if (la =? 0)%nat then length full else Nat.min la (length full))
             /\ exists pre, full = pre ++ kept)
          (fst (forward params actor_forward critic_forward w sa ma sc mc la lc))
          (actor_forward w sa ma)
  /\ Forall2 (fun kept full =>
                length kept
                = (if (lc =? 0)%nat then length full
                   else Nat.min lc (length full))
                /\ exists pre, full = pre ++ kept)
             (snd (forward params actor_forward critic_forward w sa ma sc mc la lc))
             (critic_forward w sc mc).
Proof.
  unfold forward. cbn [fst snd]. split.
  - apply Forall2_map_self. intros x. split.
    + apply py_last_n_length.
    + apply py_last_n_suffix.
  - apply Forall2_map_self. intros x. split.
    + apply py_last_n_length.
    + apply py_last_n_suffix.
Qed.

Lemma entry_pad_mask (pad : Z) (sequences : tokens) (i j : nat) :
  entry (pad_mask pad sequences) i j
  = (fun t => if (t =? pad)%Z then 0%Z else 1%Z) <$> entry sequences i j.
Proof.
  unfold entry, pad_mask. rewrite list_lookup_fmap.
  destruct (sequences !! i) as [r|]; simpl; [|reflexivity].
  apply list_lookup_fmap.
Qed.

(** X4. With a shared tokenizer [ActorCritic.generate] hands the critic the
    actor's sequence and mask, reports for both the number of generated
    tokens, and the mask has the shape of the sequence, 0 at the pad token
    and 1 elsewhere. *)
Theorem generate_shared_tokenizer
    (params : Type)
    (actor_forward : params -> tokens -> tokens -> tensor3)
    (critic_forward : params -> tokens -> tokens -> tensor2)
    (actor_generate : params -> tokens -> tokens -> tokens * tokens)
    (actor_tokenizer critic_tokenizer : Tokenizer)
    (w : params) (states_actor states_mask_actor states_critic : tokens) :
  let g := generate params actor_forward critic_forward actor_generate
             actor_tokenizer critic_tokenizer true w
             states_actor states_mask_actor states_critic in
  let generated := actor_generate w states_actor states_mask_actor in
  g_actions g = fst generated
  /\ g_sequences_actor g = snd generated
  /\ g_sequences_critic g = g_sequences_actor g
  /\ g_sequences_mask_critic g = g_sequences_mask_actor g
  /\ g_action_len_actor g = shape1 (fst generated)
  /\ g_action_len_critic g = shape1 (fst generated)
  /\ (forall i j,
        entry (g_sequences_mask_actor g) i j
        = (fun t => if (t =? pad_token_id actor_tokenizer)%Z then 0%Z else 1%Z)
            <$> entry (g_sequences_actor g) i j)
  /\ (g_actions_logits g, g_values g)
     = forward params actor_forward critic_forward w
         (g_sequences_actor g) (g_sequences_mask_actor g)
         (g_sequences_actor g) (g_sequences_mask_actor g)
         (shape1 (fst generated)) (shape1 (fst generated)).
Proof.
  cbv zeta. unfold generate.
  destruct (actor_generate w states_actor states_mask_actor) as [acts seqs].
  cbn [fst snd].
  repeat split; try reflexivity.
  intros i j. apply entry_pad_mask.
Qed.

Lemma rbind_ok {A B} (r : result A) (k : A -> result B) (b : B) :
  r ≫= k = Ok b -> exists a, r = Ok a /\ k a = Ok b.
Proof. destruct r as [a|e]; cbn; [eauto|discriminate]. Qed.

Lemma rmap_ok {A B} (f : A -> result B) (l : list A) (r : list B) :
  rmap f l = Ok r ->
  length r = length l
  /\ forall i y, r !! i = Some y -> exists x, l !! i = Some x /\ f x = Ok y.
Proof.
  revert r. induction l as [|a l IH]; intros r H; simpl in H.
  - injection H as <-. split; [reflexivity|]. intros i y Hy.
    rewrite lookup_nil in Hy. discriminate.
  - destruct (f a) as [b|e] eqn:Ea; [|discriminate].
    destruct (rmap f l) as [bs|e] eqn:El; [|discriminate].
    injection H as <-. destruct (IH bs eq_refl) as [Hlen Hl].
    split; [simpl; congruence|].
    intros [|i] y Hy; simpl in Hy.
    + injection Hy as <-. exists a. auto.
    + destruct (Hl i y Hy) as (x & Hx & Hf). exists x. auto.
Qed.

Lemma py_index_ok {A} (l : list A) (i : nat) (a : A) :
  py_index l i = Ok a -> l !! i = Some a.
Proof. unfold py_index. destruct (l !! i); intros H; congruence. Qed.

Section Rollout.

Variables f_exp f_log : tfloat -> tfloat.
Variable hf_models : list string.
Variable params : Type.
Variable actor_forward : params -> tokens -> tokens -> tensor3.
Variable critic_forward : params -> tokens -> tokens -> tensor2.
Variable actor_generate : params -> tokens -> tokens -> tokens * tokens.
Variable reward_forward : tokens -> tokens -> tensor2.
Variables actor_tokenizer critic_tokenizer reward_tokenizer : Tokenizer.

(** X5. One timestep of the rollout stores one record per sampled prompt,
    in order.  The record of prompt [i] holds row [i] of the prompt tokens
    and of the sequences and masks that [generate] returned, and the two
    action lengths that [generate] reported.  Its rewards are the suffix
    [-action_len_critic:] of row [i] of the reward model's output on the
    actor's sequence when actor and reward model are of one family, on the
    critic's sequence when critic and reward model are, and on the actor's
    sequence re-encoded for the reward model otherwise.  Its log-
    probabilities are, position by position, the logarithm of the largest
    softmax probability of row [i] of the logits, plus [eps]. *)
Theorem rollout_records (config : Config) (w : params)
    (inputs : list string) (same same_reward critic_reward : bool)
    (ms : list Memory) :
  check_model_family hf_models (actor config) (critic config) = Ok same ->
  check_model_family hf_models (actor config) (reward config)
  = Ok same_reward ->
  check_model_family hf_models (critic config) (reward config)
  = Ok critic_reward ->
  rollout f_exp f_log hf_models params actor_forward critic_forward
    actor_generate reward_forward
    actor_tokenizer critic_tokenizer reward_tokenizer config w inputs = Ok ms ->
  let states := fst (tok_call actor_tokenizer inputs) in
  let g := generate params actor_forward critic_forward actor_generate
             actor_tokenizer critic_tokenizer same w
             states (snd (tok_call actor_tokenizer inputs))
             (fst (tok_call critic_tokenizer inputs)) in
  let reward_input :=
    if same_reward then (g_sequences_actor g, g_sequences_mask_actor g)
    else if critic_reward then
      (g_sequences_critic g, g_sequences_mask_critic g)
    else change_tokenization (g_sequences_actor g)
           actor_tokenizer reward_tokenizer in
  length ms = length states
  /\ forall i m, ms !! i = Some m ->
       states !! i = Some (states_actor m)
       /\ g_actions g !! i = Some (actions m)
       /\ g_values g !! i = Some (values m)
       /\ g_sequences_actor g !! i = Some (sequences_actor m)
       /\ g_sequences_mask_actor g !! i = Some (sequences_mask_actor m)
       /\ g_sequences_critic g !! i = Some (sequences_critic m)
       /\ g_sequences_mask_critic g !! i = Some (sequences_mask_critic m)
       /\ action_len_actor m = g_action_len_actor g
       /\ action_len_critic m = g_action_len_critic g
       /\ (exists row,
             reward_forward (fst reward_input) (snd reward_input) !! i
             = Some row
             /\ rewards m = py_last_n (action_len_critic m) row)
       /\ (action_len_critic m <> 0%nat ->
           (length (rewards m) <= action_len_critic m)%nat)
       /\ (exists logits,
             g_actions_logits g !! i = Some logits
             /\ length (actions_log_probs m) = length logits
             /\ forall j row, logits !! j = Some row ->
                  exists p,
                    max_last (softmax f_exp row) = Ok p
                    /\ actions_log_probs m !! j = Some (f_log (tadd p eps))).
Proof.
  intros Hsame Hsr Hcr Hroll. cbv zeta. unfold rollout in Hroll.
  rewrite Hsame, Hsr in Hroll. cbn [mbind result_bind rbind] in Hroll.
  apply rbind_ok in Hroll as (prob & Hprob & Hroll).
  apply rbind_ok in Hroll as ([rs rm] & Hin & Hroll).
  apply rbind_ok in Hroll as (reward & _ & Hroll).
  apply rmap_ok in Hroll as [Hlen Hrec].
  rewrite length_seq in Hlen. split; [exact Hlen|].
  intros i m Hm. destruct (Hrec i m Hm) as (k & Hk & Hbuild).
  apply lookup_seq in Hk as [-> _]. cbn [Nat.add] in Hbuild.
  apply rbind_ok in Hbuild as (sa & Hsa & Hbuild).
  apply rbind_ok in Hbuild as (ac & Hac & Hbuild).
  apply rbind_ok in Hbuild as (va & Hva & Hbuild).
  apply rbind_ok in Hbuild as (re & Hre & Hbuild).
  apply rbind_ok in Hbuild as (lp & Hlp & Hbuild).
  apply rbind_ok in Hbuild as (qa & Hqa & Hbuild).
  apply rbind_ok in Hbuild as (ma & Hma & Hbuild).
  apply rbind_ok in Hbuild as (qc & Hqc & Hbuild).
  apply rbind_ok in Hbuild as (mc & Hmc & Hbuild).
  injection Hbuild as <-. cbn.
  apply py_index_ok in Hsa, Hac, Hva, Hre, Hlp, Hqa, Hma, Hqc, Hmc.
  rewrite list_lookup_fmap in Hre.
  destruct (reward_forward rs rm !! i) as [row|] eqn:Hrow; [|discriminate].
  cbn in Hre. injection Hre as <-.
  repeat split; try assumption.
  - exists row. split; [|reflexivity].
    rewrite Hcr in Hin. cbn [mbind result_bind rbind] in Hin.
    destruct same_reward; [|destruct critic_reward];
      [injection Hin as <- <-|injection Hin as <- <-|injection Hin as ->];
      exact Hrow.
  - intros Hnz. rewrite py_last_n_length.
    destruct (Nat.eqb_spec (g_action_len_critic
      (generate params actor_forward critic_forward actor_generate
         actor_tokenizer critic_tokenizer same w
         (tok_call actor_tokenizer inputs).1
         (tok_call actor_tokenizer inputs).2
         (tok_call critic_tokenizer inputs).1)) 0); [contradiction|lia].
  - unfold log_probs, map2d in Hlp. rewrite list_lookup_fmap in Hlp.
    destruct (prob !! i) as [prow|] eqn:Hprow; [|discriminate].
    cbn in Hlp. injection Hlp as <-.
    unfold max_softmax in Hprob. apply rmap_ok in Hprob as [_ Hprob].
    destruct (Hprob i prow Hprow) as (logits & Hlogits & Hrow_i).
    apply rmap_ok in Hrow_i as [Hlen_i Hrow_i].
    exists logits. split; [exact Hlogits|].
    split; [rewrite length_map; exact Hlen_i|].
    intros j lrow Hj.
    destruct (lookup_lt_is_Some_2 prow j) as [p Hp].
    { rewrite Hlen_i. eapply lookup_lt_Some. exact Hj. }
    destruct (Hrow_i j p Hp) as (lrow' & Hj' & Hmax).
    rewrite Hj in Hj'. injection Hj' as <-.
    exists p. split; [exact Hmax|].
    rewrite list_lookup_fmap, Hp. reflexivity.
Qed.

End Rollout.

Lemma rollout_records_witness :
  exists ms,
    ex_rollout ["abcdefgh"; "abcd"] = Ok ms
    /\ length ms = 2%nat
    /\ forall i m, ms !! i = Some m ->
         action_len_actor m = 2%nat /\ action_len_critic m = 4%nat
         /\ (length (rewards m) <= 4)%nat.
Proof.
  destruct (ex_rollout ["abcdefgh"; "abcd"]) as [ms|e] eqn:E;
    [|vm_compute in E; discriminate].
  exists ms. split; [reflexivity|].
  destruct (rollout_records (fun x => x) (fun x => x) ex_catalog unit
              (ex_actor_forward false) (ex_critic_forward false)
              ex_actor_generate ex_reward_forward
              ex_char_tokenizer ex_pair_tokenizer ex_char_tokenizer
              (ex_config false false) tt ["abcdefgh"; "abcd"]
              false true false ms
              eq_refl eq_refl eq_refl E) as [Hlen Hrec].
  split; [exact Hlen|].
  intros i m Hm.
  destruct (Hrec i m Hm)
    as (_ & _ & _ & _ & _ & _ & _ & Ha & Hc & _ & Hr & _).
  rewrite Ha, Hc in *.  split; [reflexivity|].
  split; [reflexivity|]. apply Hr. discriminate.
Defined.

(** ** The learning step: batches, statistics, advantages *)

Lemma chunks_fuel_concat {A} (fuel n : nat) (l : list A) :
  (0 < n)%nat -> (length l <= fuel)%nat -> concat (chunks_fuel fuel n l) = l.
Proof.
  intros Hn. revert l. induction fuel as [|fuel IH]; intros l Hl; simpl.
  - destruct l; [reflexivity|simpl in Hl; lia].
  - destruct l as [|a l]; [reflexivity|].
    cbn [concat]. rewrite IH.
    + apply take_drop.
    + rewrite length_drop. simpl in *. lia.
Qed.

Lemma chunks_fuel_bounds {A} (fuel n : nat) (l : list A) :
  (0 < n)%nat ->
  Forall (fun c => (0 < length c <= n)%nat) (chunks_fuel fuel n l).
Proof.
  intros Hn. revert l. induction fuel as [|fuel IH]; intros l; simpl.
  - constructor.
  - destruct l as [|a l]; [constructor|]. constructor; [|apply IH].
    rewrite length_take. simpl. lia.
Qed.

Lemma chunks_fuel_exact {A} (fuel n k : nat) (l : list A) :
  (0 < n)%nat -> (length l <= fuel)%nat -> length l = (k * n)%nat ->
  length (chunks_fuel fuel n l) = k
  /\ Forall (fun c => length c = n) (chunks_fuel fuel n l).
Proof.
  intros Hn. revert k l. induction fuel as [|fuel IH]; intros k l Hl Hk; simpl.
  - destruct l; [|simpl in Hl; lia]. simpl in Hk.
    destruct k; [split; [reflexivity|constructor]|simpl in Hk; lia].
  - destruct l as [|a l].
    + simpl in Hk. destruct k; [split; [reflexivity|constructor]|].
      simpl in Hk. lia.
    + destruct k as [|k]; [simpl in Hk; lia|].
      destruct (IH k (drop n (a :: l))) as [Hc Hf].
      * rewrite length_drop. simpl in *. lia.
      * rewrite length_drop. simpl in *. lia.
      * split; [simpl; congruence|]. constructor; [|exact Hf].
        rewrite length_take. simpl in *. lia.
Qed.

(** X6. The groups of records that the loop of [learn] collates one after
    the other partition the experience buffer: for a positive batch size
    their concatenation is the buffer, no group is empty or longer than the
    batch size, and a buffer of [k] times the batch size gives exactly [k]
    groups of that size. *)
Theorem chunks_partition {A} (n : nat) (l : list A) :
  (0 < n)%nat ->
  concat (chunks n l) = l
  /\ Forall (fun c => (0 < length c <= n)%nat) (chunks n l)
  /\ forall k, length l = (k * n)%nat ->
       length (chunks n l) = k /\ Forall (fun c => length c = n) (chunks n l).
Proof.
  intros Hn. unfold chunks. split; [|split].
  - apply chunks_fuel_concat; [assumption|lia].
  - apply chunks_fuel_bounds. assumption.
  - intros k Hk. apply chunks_fuel_exact; [assumption|lia|assumption].
Qed.

Lemma chunks_partition_witness :
  concat (chunks 2 [1; 2; 3; 4; 5; 6]%Z) = [1; 2; 3; 4; 5; 6]%Z
  /\ length (chunks 2 [1; 2; 3; 4; 5; 6]%Z) = 3%nat.
Proof.
  destruct (chunks_partition 2 [1; 2; 3; 4; 5; 6]%Z) as (Hc & _ & Hk);
    [lia|].
  split; [exact Hc|]. apply (Hk 3%nat). reflexivity.
Defined.

Lemma collate_action_len (g : list Memory) (b : Batch) :
  collate g = Ok b ->
  b_action_len_actor b = map action_len_actor g
  /\ b_action_len_critic b = map action_len_critic g
  /\ b_old_values b = map values g
  /\ b_rewards b = map rewards g.
Proof.
  unfold collate. intros H.
  apply rbind_ok in H as (sa & _ & H).
  apply rbind_ok in H as (ac & _ & H).
  apply rbind_ok in H as (va & Hva & H).
  apply rbind_ok in H as (re & Hre & H).
  apply rbind_ok in H as (lp & _ & H).
  apply rbind_ok in H as (qa & _ & H).
  apply rbind_ok in H as (ma & _ & H).
  apply rbind_ok in H as (qc & _ & H).
  apply rbind_ok in H as (mc & _ & H).
  injection H as <-. cbn.
  assert (Hstack : forall A (rows out : list (list A)),
            stack rows = Ok out -> out = rows).
  { intros A rows out. unfold stack. destruct rows as [|r rest]; [discriminate|].
    destruct (forallb _ rest); intros E; congruence. }
  apply Hstack in Hva, Hre. subst. auto.
Qed.

Lemma item_needs_one {A} (l : list A) :
  length l <> 1%nat -> exists e, item l = Raise e.
Proof.
  destruct l as [|a [|b l]]; simpl; intros H; eauto. contradiction.
Qed.

Lemma chunks_head {A} (n : nat) (l : list A) :
  l <> [] -> exists rest, chunks n l = take n l :: rest.
Proof.
  unfold chunks. destruct l as [|a l]; [contradiction|]. intros _.
  simpl. eauto.
Qed.

Section LearnProperties.

Variables f_exp f_log f_sqrt : tfloat -> tfloat.
Variable hf_models : list string.
Variable params : Type.
Variable actor_forward : params -> tokens -> tokens -> tensor3.
Variable critic_forward : params -> tokens -> tokens -> tensor2.
Variable apply_event : Batch -> event -> params -> params.
Variable config : Config.

(** X7. [learn] works with a batch size of 1 only.  With a larger batch
    size, at least one epoch and a buffer that fills a batch, it raises on
    the first mini-batch, where [action_len_actor.item()] meets a tensor of
    several elements, and the trainer is left as it was: no backward pass,
    no optimizer step, no statistics. *)
Theorem learn_raises_on_larger_batches
    (memories : list Memory) (st : Trainer params) :
  (2 <= batch_size (trainer config))%nat ->
  (batch_size (trainer config) <= length memories)%nat ->
  (1 <= epochs (trainer config))%nat ->
  exists e,
    learn f_exp f_log f_sqrt hf_models params actor_forward critic_forward
      apply_event config memories st = (Raise e, st).
Proof.
  intros Hbs Hlen Hep. unfold learn.
  destruct (Nat.eqb_spec (batch_size (trainer config)) 0) as [E|_]; [lia|].
  destruct (Nat.eqb_spec (length memories / batch_size (trainer config)) 0)
    as [E|_].
  { apply Nat.div_small_iff in E; lia. }
  destruct (epochs (trainer config)) as [|n]; [lia|].
  destruct (chunks_head (batch_size (trainer config)) memories) as [rest ->].
  { intros ->. simpl in Hlen. lia. }
  cbn [learn_epochs learn_batches].
  unfold mbind, M_bind, mbind', mlift.
  destruct (collate (take (batch_size (trainer config)) memories))
    as [b|e] eqn:Ec; [|eauto].
  destruct (collate_action_len _ _ Ec) as (Ha & _).
  destruct (item_needs_one (b_action_len_actor b)) as [e He].
  { rewrite Ha, length_map, length_take. lia. }
  exists e. unfold learn_step.
  unfold mbind, M_bind, mbind', mget, mlift. rewrite He. reflexivity.
Qed.

(** X8. What a successful iteration of the learning step leaves behind.
    With [p] the policy loss and [v] the value loss that the step computes
    from the forward pass on the batch, both are numbers, the calls of the
    active training mode were made once, [p + v] was appended to the
    training-loss statistics, and the value-loss statistics, although [v] is
    passed to [append_training_stats] too, are unchanged (the function
    records only the first of its arguments that is given). *)
Theorem learn_step_success (b : Batch) (st st' : Trainer params) :
  learn_step f_exp f_log f_sqrt hf_models params actor_forward critic_forward
    apply_event config b st = (Ok tt, st') ->
  exists la lc p v,
    item (b_action_len_actor b) = Ok la
    /\ item (b_action_len_critic b) = Ok lc
    /\ policy_loss f_exp f_log f_sqrt hf_models config
         (fst (forward params actor_forward critic_forward (weights st)
                 (b_sequences_actor b) (b_sequences_mask_actor b)
                 (b_sequences_critic b) (b_sequences_mask_critic b) la lc))
         b = Ok p
    /\ value_loss_of config
         (snd (forward params actor_forward critic_forward (weights st)
                 (b_sequences_actor b) (b_sequences_mask_actor b)
                 (b_sequences_critic b) (b_sequences_mask_critic b) la lc))
         b = Ok v
    /\ isnan p = false /\ isnan v = false
    /\ training_loss (stats st') = training_loss (stats st) ++ [tadd p v]
    /\ value_loss (stats st') = value_loss (stats st)
    /\ training_accuracy (stats st') = training_accuracy (stats st)
    /\ validation_loss (stats st') = validation_loss (stats st)
    /\ validation_accuracy (stats st') = validation_accuracy (stats st)
    /\ calls st' = calls st ++
         (if deepspeed_enable (trainer config) then
            [engine_backward V_loss (tadd p v); engine_step]
          else if accelerate_enable (trainer config) then
            [optimizer_zero_grad; accelerator_backward V_loss (tadd p v);
             optimizer_step; scheduler_step]
          else
            [optimizer_zero_grad; tensor_backward V_value_loss v;
             optimizer_step; scheduler_step]).
Proof.
  unfold learn_step. unfold mbind at 1 2 3, M_bind, mbind', mget, mlift.
  destruct (item (b_action_len_actor b)) as [la|e]; [|discriminate].
  destruct (item (b_action_len_critic b)) as [lc|e]; [|discriminate].
  destruct (forward _ _ _ _ _ _ _ _ _ _) as [logits vals] eqn:Hf.
  unfold mbind at 1, M_bind, mbind', mlift.
  destruct (policy_loss _ _ _ _ _ _ _) as [p|e] eqn:Hp; [|discriminate].
  destruct (isnan p) eqn:Ep; [discriminate|].
  unfold mbind at 1, M_bind, mbind', mlift.
  destruct (value_loss_of _ _ _) as [v|e] eqn:Hv; [|discriminate].
  destruct (isnan v) eqn:Ev; [discriminate|].
  unfold mbind at 1, M_bind, mbind'.
  destruct (backward_pass_calls params apply_event config b (tadd p v) v st)
    as (st1 & -> & Hstats & Hcalls).
  unfold mmodify. intros H. injection H as <-.
  exists la, lc, p, v. rewrite Hf.
  split; [reflexivity|]. split; [reflexivity|].
  split; [exact Hp|]. split; [exact Hv|].
  cbn. rewrite Hstats, Hcalls.
  repeat split; try assumption; reflexivity.
Qed.

(** X9. In the branch for models of one family, the advantage of a
    mini-batch that holds a single value (one record, one generated
    position) is not-a-number whatever the reward and the old value: the
    standard deviation of one value is not a number, and the advantage is
    divided by it. *)
Theorem advantage_of_single_value_is_nan (old_value reward : tfloat) :
  advantages f_sqrt config true [[old_value]] [[reward]] = Ok [[NaN]].
Proof.
  unfold advantages, discounted_rewards, discounted_at, std_all.
  destruct (gamma_discounted (trainer config)) as [g|],
           old_value as [o|], reward as [r|]; reflexivity.
Qed.

End LearnProperties.

Lemma learn_raises_on_larger_batches_witness :
  exists e,
    learn (fun x => x) (fun x => x) (fun x => x) ex_catalog unit
      (ex_actor_forward false) (ex_critic_forward false) ex_apply_event
      {| actor := {| model := "gpt2" |};
         critic := {| model := "llama-7B" |};
         reward := {| model := "gpt2" |};
         trainer :=
           {| epochs := 1; actor_eps_clip := frac 1 5;
              critic_eps_clip := frac 1 5; beta_s := frac 1 100;
              batch_size := 2; gamma_discounted := frac 99 100;
              deepspeed_enable := false; accelerate_enable := false |} |}
      [ex_memory; ex_memory] ex_state
    = (Raise e, ex_state).
Proof.
  apply learn_raises_on_larger_batches; simpl; lia.
Defined.

Lemma learn_step_success_witness :
  exists p v,
    isnan p = false /\ isnan v = false
    /\ training_loss (stats (snd (ex_learn_step false false false false ex_state)))
       = [tadd p v]
    /\ value_loss (stats (snd (ex_learn_step false false false false ex_state)))
       = [].
Proof.
  destruct (ex_learn_step false false false false ex_state) as [r st'] eqn:E.
  assert (Hr : r = Ok tt).
  { apply (f_equal fst) in E. vm_compute in E. symmetry. exact E. }
  subst r.
  destruct (learn_step_success (fun x => x) (fun x => x) (fun x => x)
              ex_catalog unit (ex_actor_forward false)
              (ex_critic_forward false) ex_apply_event
              (ex_config false false) ex_batch ex_state st' E)
    as (la & lc & p & v & _ & _ & _ & _ & Hp & Hv & Ht & Hvl & _).
  exists p, v. cbn [snd]. repeat split; assumption.
Defined.

(** ** Discounted rewards *)

Lemma rmap_ext_ok {A B} (f : A -> result B) (h : A -> B) (l : list A) :
  Forall (fun x => f x = Ok (h x)) l -> rmap f l = Ok (map h l).
Proof.
  induction 1 as [|x l Hx Hl IH]; simpl; [reflexivity|].
  rewrite Hx, IH. reflexivity.
Qed.

(** The inner loop from position [j] on, started with the sum [a]. *)
Lemma discounted_at_from (g : Qc) (qs : list Qc) (i n j : nat) (a : Qc) :
  (i <= j)%nat -> (j + n)%nat = length qs ->
  foldl (fun acc k =>
           x ← acc;
           rk ← py_index (map Fin qs) k;
           Ok (tadd x (tmul (tpow (Fin g) (k - i)) rk)))
        (Ok (Fin a)) (seq j n)
  = Ok (Fin (a + g ^ (j - i) * discounted_return g (drop j qs))).
Proof.
  revert j a. induction n as [|n IH]; intros j a Hij Hlen.
  - cbn [seq foldl]. rewrite drop_ge by lia. cbn [discounted_return foldr].
    do 2 f_equal. generalize (g ^ (j - i)). intros x. ring.
  - cbn [seq foldl].
    destruct (lookup_lt_is_Some_2 qs j) as [q Hq]; [lia|].
    unfold py_index at 2. rewrite list_lookup_fmap, Hq.
    cbn [fmap option_fmap option_map mbind result_bind rbind tpow tmul tadd tlift2].
    rewrite IH by lia.
    rewrite (drop_S qs q j Hq).
    change (discounted_return g (q :: drop (S j) qs))
      with (q + g * discounted_return g (drop (S j) qs)).
    replace (S j - i)%nat with (S (j - i)) by lia.
    cbn [Qcpower]. do 2 f_equal.
    generalize (g ^ (j - i)) (discounted_return g (drop (S j) qs)).
    intros x y. ring.
Qed.

(** X10. The double loop that fills [discounted_rewards] computes the
    discounted return of the usual backward recursion: for reward rows as
    long as the rows of [old_values], the entry at position [i] of a row is
    the reward at [i] plus [gamma] times the entry at [i + 1], and the last
    entry is the last reward. *)
Theorem discounted_rewards_are_returns
    (g : Qc) (L : nat) (old_values : tensor2) (rows : list (list Qc)) :
  shape1 old_values = L ->
  Forall (fun qs => length qs = L) rows ->
  discounted_rewards (Fin g) old_values (map (map Fin) rows)
  = Ok (map (fun qs =>
               map (fun i => Fin (discounted_return g (drop i qs))) (seq 0 L))
            rows)
  /\ forall q qs, discounted_return g (q :: qs) = q + g * discounted_return g qs.
Proof.
  intros HL Hrows. split; [|reflexivity].
  unfold discounted_rewards. rewrite HL. clear HL.
  induction Hrows as [|qs rows Hqs Hrows IH]; [reflexivity|].
  cbn [map rmap].
  rewrite (rmap_ext_ok (discounted_at (Fin g) (map Fin qs) L)
             (fun i => Fin (discounted_return g (drop i qs)))).
  - rewrite IH. reflexivity.
  - apply Forall_forall. intros i Hi.
    apply in_seq in Hi. unfold discounted_at.
    rewrite (discounted_at_from g qs i (L - i) i 0) by lia.
    replace (i - i)%nat with 0%nat by lia. cbn [Qcpower].
    do 2 f_equal. generalize (discounted_return g (drop i qs)).
    intros y. ring.
Qed.

Lemma discounted_rewards_are_returns_witness :
  discounted_rewards (Fin (Q2Qc (1 # 2))) [[fin 0; fin 0; fin 0]]
    (map (map Fin) [[Q2Qc 4; Q2Qc 2; Q2Qc 8]])
  = Ok (map (fun qs =>
               map (fun i => Fin (discounted_return (Q2Qc (1 # 2)) (drop i qs)))
                   (seq 0 3))
            [[Q2Qc 4; Q2Qc 2; Q2Qc 8]]).
Proof.
  apply (discounted_rewards_are_returns (Q2Qc (1 # 2)) 3
           [[fin 0; fin 0; fin 0]] [[Q2Qc 4; Q2Qc 2; Q2Qc 8]]).
  - reflexivity.
  - repeat constructor.
Defined.

(** ** Checkpoints: what loading touches, and round trips *)

Lemma keeps_ret {A} (a : A) : keeps_files (mret a).
Proof. intros t. split; reflexivity. Qed.

Lemma keeps_raise {A} (e : exn) : keeps_files (@mraise BaseTrainer A e).
Proof. intros t. split; reflexivity. Qed.

Lemma keeps_lift {A} (r : result A) : keeps_files (mlift r).
Proof. intros t. split; reflexivity. Qed.

Lemma keeps_get : keeps_files (@mget BaseTrainer).
Proof. intros t. split; reflexivity. Qed.

Lemma keeps_modify (f : BaseTrainer -> BaseTrainer) :
  (forall t, bt_fs (f t) = bt_fs t
             /\ bt_deepspeed_enable (f t) = bt_deepspeed_enable t) ->
  keeps_files (mmodify f).
Proof. intros H t. apply H. Qed.

Lemma keeps_bind {A B} (m : M BaseTrainer A) (k : A -> M BaseTrainer B) :
  keeps_files m -> (forall a, keeps_files (k a)) -> keeps_files (m ≫= k).
Proof.
  intros Hm Hk t. unfold mbind, M_bind, mbind'.
  destruct (Hm t) as [H1 H2]. destruct (m t) as [[a|e] t1]; cbn [snd] in *.
  - destruct (Hk a t1) as [H3 H4]. split; congruence.
  - split; assumption.
Qed.

Lemma keeps_fmap {A B} (f : A -> B) (m : M BaseTrainer A) :
  keeps_files m -> keeps_files (f <$> m).
Proof.
  intros Hm. unfold fmap, M_fmap.
  apply (keeps_bind m (fun a => mret (f a))); [assumption|].
  intros a. apply keeps_ret.
Qed.

Lemma keeps_try {A} (body : M BaseTrainer A) (handler : exn -> M BaseTrainer A) :
  keeps_files body -> (forall e, keeps_files (handler e)) ->
  keeps_files (try_except body handler).
Proof.
  intros Hb Hh t. unfold try_except.
  destruct (Hb t) as [H1 H2]. destruct (body t) as [[a|e] t1]; cbn [snd] in *.
  - split; assumption.
  - destruct (Hh e t1) as [H3 H4]. split; congruence.
Qed.

Ltac keeps_step :=
  first
    [ apply keeps_ret
    | apply keeps_raise
    | apply keeps_lift
    | apply keeps_get
    | apply keeps_modify; intros ?; split; reflexivity
    | apply keeps_fmap
    | apply keeps_try; [|intros ?]
    | apply keeps_bind; [|intros ?]
    | match goal with
      | |- keeps_files (match ?x with _ => _ end) => destruct x
      end ].

Lemma restore_keeps_files (checkpoint : gmap string pyval) :
  keeps_files (restore checkpoint).
Proof. unfold restore. repeat keeps_step. Qed.

Lemma engine_load_keeps_files (path : string) : keeps_files (engine_load path).
Proof. unfold engine_load. repeat keeps_step. Qed.

(** X11. [load_checkpoint] only reads the file system: whatever the
    checkpoint holds and whether the call returns or raises, the files and
    the DeepSpeed flag of the trainer are afterwards as before. *)
Theorem load_checkpoint_keeps_files
    (check_model_path : gmap string file -> option string) (t : BaseTrainer) :
  bt_fs (snd (load_checkpoint check_model_path t)) = bt_fs t
  /\ bt_deepspeed_enable (snd (load_checkpoint check_model_path t))
     = bt_deepspeed_enable t.
Proof.
  revert t. change (keeps_files (load_checkpoint check_model_path)).
  unfold load_checkpoint.
  apply keeps_bind; [apply keeps_get|]. intros t.
  destruct (check_model_path (bt_fs t)) as [path|]; [|apply keeps_ret].
  destruct (bt_deepspeed_enable t).
  - apply keeps_bind.
    + apply keeps_try; [|intros e; apply keeps_ret].
      apply keeps_fmap, engine_load_keeps_files.
    + intros [cs|]; repeat keeps_step.
  - apply keeps_bind.
    + apply keeps_try; [|intros e; apply keeps_ret].
      apply keeps_fmap, keeps_lift.
    + intros [d|]; [apply restore_keeps_files|apply keeps_ret].
Qed.

(** After a successful [torch.load] in a trainer of a single model. *)
Lemma restore_single (t : BaseTrainer) (n : Net) (d : gmap string pyval)
    (o s m : state_dict) (st : TrainingStats) (epoch : Z) (step : pyval) :
  bt_model t = SingleModel n ->
  d !! "optimizer" = Some (PStateDict o) ->
  d !! "scheduler" = Some (PStateDict s) ->
  d !! "lora_peft" = Some (PBool (is_lora_peft_applied n)) ->
  d !! "model" = Some (PStateDict m) ->
  d !! "training_stats" = Some (PStats st) ->
  d !! "epoch" = Some (PInt epoch) ->
  d !! "step" = Some step ->
  restore d t
  = (match step with
     | PInt k => Ok (epoch, (k + 1)%Z)
     | _ => Raise (TypeError "int expected")
     end,
     set_training_stats st
       (set_model (SingleModel (with_state m n))
          (set_scheduler s (set_optimizer o t)))).
Proof.
  intros Hm Ho Hs Hl Hmod Hst He Hstep.
  unfold restore, dict_get, flag_differs.
  rewrite Ho, Hs, Hl, Hmod, Hst, He, Hstep.
  unfold mbind, M_bind, mbind', mlift, mmodify, mget, mret, result_bind, rbind.
  cbn [as_state_dict bt_model set_scheduler set_optimizer].
  rewrite Hm. cbn [py_ne_bool]. rewrite Bool.eqb_reflx. cbn [negb as_stats as_int].
  destruct step; reflexivity.
Qed.

(** The file that [save_checkpoint] leaves at the path, for a trainer of a
    single model without DeepSpeed. *)
Lemma save_checkpoint_single
    (get_model_path : Z -> option Z -> Z -> option Z -> string)
    (t : BaseTrainer) (n : Net)
    (current_epoch max_epochs : Z) (current_step max_steps : option Z) :
  bt_model t = SingleModel n ->
  bt_deepspeed_enable t = false ->
  (forall snapshot client_state,
     bt_fs t !! get_model_path current_epoch current_step max_epochs max_steps
     <> Some (EngineDir snapshot client_state)) ->
  exists t' d,
    save_checkpoint get_model_path current_epoch max_epochs
      current_step max_steps t = (Ok tt, t')
    /\ bt_model t' = bt_model t
    /\ bt_optimizer t' = bt_optimizer t
    /\ bt_scheduler t' = bt_scheduler t
    /\ bt_training_stats t' = bt_training_stats t
    /\ bt_deepspeed_enable t' = false
    /\ bt_fs t' !! get_model_path current_epoch current_step max_epochs max_steps
       = Some (Pickle d)
    /\ d !! "optimizer" = Some (PStateDict (bt_optimizer t))
    /\ d !! "scheduler" = Some (PStateDict (bt_scheduler t))
    /\ d !! "lora_peft" = Some (PBool (is_lora_peft_applied n))
    /\ d !! "model" = Some (PStateDict (net_state n))
    /\ d !! "training_stats" = Some (PStats (bt_training_stats t))
    /\ d !! "epoch" = Some (PInt current_epoch)
    /\ d !! "step" = Some (opt_int current_step).
Proof.
  intros Hm Hds Hno. unfold save_checkpoint.
  set (path := get_model_path current_epoch current_step max_epochs max_steps)
    in *.
  unfold mbind, M_bind, mbind', mget, mret.
  destruct (bt_fs t !! path) as [f|] eqn:Ef.
  - rewrite bool_decide_eq_true_2 by eauto. rewrite Hds.
    unfold os_remove. unfold mbind, M_bind, mbind', mget, mmodify.
    rewrite Ef.
    destruct f as [d0|snap cs|bytes]; [|exfalso; eapply Hno; reflexivity|];
      cbn [bt_deepspeed_enable set_fs bt_model]; rewrite Hds, Hm;
      eexists; eexists; (split; [reflexivity|]);
      cbn [bt_model bt_optimizer bt_scheduler bt_training_stats
           bt_deepspeed_enable bt_fs set_fs];
      rewrite lookup_insert_eq; repeat split; try assumption; reflexivity.
  - rewrite bool_decide_eq_false_2 by (intros [x Hx]; discriminate).
    rewrite Hds, Hm. unfold mmodify.
    eexists; eexists; (split; [reflexivity|]).
    cbn [bt_model bt_optimizer bt_scheduler bt_training_stats
         bt_deepspeed_enable bt_fs set_fs].
    rewrite lookup_insert_eq. repeat split; try assumption; reflexivity.
Qed.

Section CheckpointRoundTrip.

Variable get_model_path : Z -> option Z -> Z -> option Z -> string.
Variable check_model_path : gmap string file -> option string.

(** X12. Round trip of a checkpoint, for the trainer of a single model
    without DeepSpeed.  [save_checkpoint] at epoch [e] and step [k]
    succeeds; a trainer with the same adaptation flag that finds the file
    gets the cursor [(e, k + 1)] from [load_checkpoint], and its weights,
    optimizer state, scheduler state and training statistics are those of
    the trainer that saved, whatever they were before. *)
Theorem checkpoint_round_trip_single
    (t : BaseTrainer) (n : Net) (epoch max_epochs step : Z)
    (max_steps : option Z) :
  bt_model t = SingleModel n ->
  bt_deepspeed_enable t = false ->
  (forall snapshot client_state,
     bt_fs t !! get_model_path epoch (Some step) max_epochs max_steps
     <> Some (EngineDir snapshot client_state)) ->
  exists t',
    save_checkpoint get_model_path epoch max_epochs (Some step) max_steps t
    = (Ok tt, t')
    /\ forall (t2 : BaseTrainer) (n2 : Net),
         bt_fs t2 = bt_fs t' ->
         bt_deepspeed_enable t2 = false ->
         bt_model t2 = SingleModel n2 ->
         is_lora_peft_applied n2 = is_lora_peft_applied n ->
         check_model_path (bt_fs t2)
         = Some (get_model_path epoch (Some step) max_epochs max_steps) ->
         load_checkpoint check_model_path t2
         = (Ok (epoch, (step + 1)%Z),
            set_training_stats (bt_training_stats t)
              (set_model (SingleModel (with_state (net_state n) n2))
                 (set_scheduler (bt_scheduler t)
                    (set_optimizer (bt_optimizer t) t2)))).
Proof.
  intros Hm Hds Hno.
  destruct (save_checkpoint_single get_model_path t n epoch max_epochs
              (Some step) max_steps Hm Hds Hno)
    as (t' & d & Hsave & _ & _ & _ & _ & _ & Hfile & Ho & Hs & Hl & Hmod
        & Hst & He & Hstep).
  exists t'. split; [exact Hsave|].
  intros t2 n2 Hfs Hds2 Hm2 Hlora Hcheck.
  unfold load_checkpoint. unfold mbind at 1, M_bind, mbind', mget.
  rewrite Hcheck, Hds2.
  unfold mbind at 1, M_bind, mbind', try_except, fmap, M_fmap, mbind', mlift, mret.
  rewrite Hfs, Hfile. cbn [torch_load].
  rewrite <- Hlora in Hl.
  rewrite (restore_single t2 n2 d _ _ _ _ epoch (PInt step) Hm2 Ho Hs Hl Hmod
             Hst He Hstep).
  reflexivity.
Qed.

(** X13. The same round trip with the step left out, as the defaults of
    [save_checkpoint] allow: the checkpoint holds [None] under "step", and
    [load_checkpoint] raises a TypeError at [step + 1], after weights,
    optimizer, scheduler and statistics have been replaced. *)
Theorem checkpoint_without_step_cannot_be_loaded
    (t : BaseTrainer) (n : Net) (epoch max_epochs : Z) :
  bt_model t = SingleModel n ->
  bt_deepspeed_enable t = false ->
  (forall snapshot client_state,
     bt_fs t !! get_model_path epoch None max_epochs None
     <> Some (EngineDir snapshot client_state)) ->
  exists t',
    save_checkpoint get_model_path epoch max_epochs None None t = (Ok tt, t')
    /\ (check_model_path (bt_fs t')
        = Some (get_model_path epoch None max_epochs None) ->
        load_checkpoint check_model_path t'
        = (Raise (TypeError "int expected"),
           set_training_stats (bt_training_stats t)
             (set_model (SingleModel (with_state (net_state n) n))
                (set_scheduler (bt_scheduler t)
                   (set_optimizer (bt_optimizer t) t'))))).
Proof.
  intros Hm Hds Hno.
  destruct (save_checkpoint_single get_model_path t n epoch max_epochs
              None None Hm Hds Hno)
    as (t' & d & Hsave & Hm' & _ & _ & _ & Hds' & Hfile & Ho & Hs & Hl & Hmod
        & Hst & He & Hstep).
  exists t'. split; [exact Hsave|]. intros Hcheck.
  unfold load_checkpoint. unfold mbind at 1, M_bind, mbind', mget.
  rewrite Hcheck, Hds'.
  unfold mbind at 1, M_bind, mbind', try_except, fmap, M_fmap, mbind', mlift, mret.
  rewrite Hfile. cbn [torch_load].
  rewrite Hm in Hm'.
  rewrite (restore_single t' n d _ _ _ _ epoch PNone Hm' Ho Hs Hl Hmod
             Hst He Hstep).
  reflexivity.
Qed.

(** X14. The [try] of [load_checkpoint] covers [torch.load] only: a file
    that deserializes to a mapping without the key "optimizer" makes the
    call raise a KeyError, with the trainer untouched. *)
Theorem load_checkpoint_missing_optimizer
    (t : BaseTrainer) (path : string) (d : gmap string pyval) :
  check_model_path (bt_fs t) = Some path ->
  bt_deepspeed_enable t = false ->
  bt_fs t !! path = Some (Pickle d) ->
  d !! "optimizer" = None ->
  load_checkpoint check_model_path t = (Raise (KeyError "optimizer"), t).
Proof.
  intros Hcheck Hds Hfile Hno.
  unfold load_checkpoint. unfold mbind at 1, M_bind, mbind', mget.
  rewrite Hcheck, Hds.
  unfold mbind at 1, M_bind, mbind', try_except, fmap, M_fmap, mbind', mlift, mret.
  rewrite Hfile. cbn [torch_load].
  unfold restore, dict_get. rewrite Hno. reflexivity.
Qed.

End CheckpointRoundTrip.

Lemma checkpoint_round_trip_single_witness :
  load_checkpoint ex_check_model_path
    (ex_trainer (SingleModel (ex_net 9 false)) 8 7
       (bt_fs (ex_saved (ex_trainer (SingleModel (ex_net 1 false)) 3 4 ∅)
                 (Some 2%Z))))
  = (Ok (5, 3)%Z,
     ex_trainer (SingleModel (ex_net 1 false)) 3 4
       (bt_fs (ex_saved (ex_trainer (SingleModel (ex_net 1 false)) 3 4 ∅)
                 (Some 2%Z)))).
Proof.
  assert (Hfree : forall snapshot client_state,
            bt_fs (ex_trainer (SingleModel (ex_net 1 false)) 3 4 ∅)
              !! ex_get_model_path 5 (Some 2%Z) 10 (Some 9%Z)
            <> Some (EngineDir snapshot client_state)).
  { intros snap cs H. vm_compute in H. discriminate. }
  destruct (checkpoint_round_trip_single ex_get_model_path ex_check_model_path
              (ex_trainer (SingleModel (ex_net 1 false)) 3 4 ∅)
              (ex_net 1 false) 5 10 2 (Some 9%Z) eq_refl eq_refl Hfree)
    as (t' & Hsave & Hload).
  assert (Ht' : t' = ex_saved (ex_trainer (SingleModel (ex_net 1 false)) 3 4 ∅)
                       (Some 2%Z)).
  { unfold ex_saved. rewrite Hsave. reflexivity. }
  subst t'.
  rewrite (Hload _ (ex_net 9 false)); reflexivity.
Defined.

Lemma checkpoint_without_step_cannot_be_loaded_witness :
  exists t',
    save_checkpoint ex_get_model_path 5 10 None None
      (ex_trainer (SingleModel (ex_net 1 false)) 3 4 ∅) = (Ok tt, t')
    /\ fst (load_checkpoint ex_check_model_path t')
       = Raise (TypeError "int expected").
Proof.
  assert (Hfree : forall snapshot client_state,
            bt_fs (ex_trainer (SingleModel (ex_net 1 false)) 3 4 ∅)
              !! ex_get_model_path 5 None 10 None
            <> Some (EngineDir snapshot client_state)).
  { intros snap cs H. vm_compute in H. discriminate. }
  destruct (checkpoint_without_step_cannot_be_loaded ex_get_model_path
              ex_check_model_path
              (ex_trainer (SingleModel (ex_net 1 false)) 3 4 ∅)
              (ex_net 1 false) 5 10 eq_refl eq_refl Hfree)
    as (t' & Hsave & Hload).
  exists t'. split; [exact Hsave|].
  rewrite Hload; [reflexivity|].
  assert (Ht' : t' = snd (save_checkpoint ex_get_model_path 5 10 None None
                            (ex_trainer (SingleModel (ex_net 1 false)) 3 4 ∅)))
    by (rewrite Hsave; reflexivity).
  subst t'. vm_compute. reflexivity.
Defined.

Lemma load_checkpoint_missing_optimizer_witness :
  load_checkpoint ex_check_model_path
    (ex_trainer (SingleModel (ex_net 1 false)) 3 4
       {[ "checkpoint.pt" :=
            Pickle (<["model" := PStateDict [("weight", 10%Z)]]>
                      {[ "lora_peft" := PBool false ]}) ]})
  = (Raise (KeyError "optimizer"),
     ex_trainer (SingleModel (ex_net 1 false)) 3 4
       {[ "checkpoint.pt" :=
            Pickle (<["model" := PStateDict [("weight", 10%Z)]]>
                      {[ "lora_peft" := PBool false ]}) ]}).
Proof.
  apply (load_checkpoint_missing_optimizer ex_check_model_path _
           "checkpoint.pt"
           (<["model" := PStateDict [("weight", 10%Z)]]>
              {[ "lora_peft" := PBool false ]}));
    vm_compute; reflexivity.
Defined.

Ltac ckpt_simpl :=
  cbv beta iota zeta;
  cbn [bt_fs bt_deepspeed_enable bt_model bt_optimizer bt_scheduler
       bt_training_stats set_fs].

Section CheckpointSaving.

Variable get_model_path : Z -> option Z -> Z -> option Z -> string.
Variable check_model_path : gmap string file -> option string.

(** X15. Saving the same checkpoint twice in a row is saving it once: when
    [save_checkpoint] has succeeded, the same call on the trainer it left
    succeeds again, removes the file it finds and writes the same one, so
    the trainer and its files are as after the first call. *)
Theorem save_checkpoint_twice
    (t t' : BaseTrainer) (current_epoch max_epochs : Z)
    (current_step max_steps : option Z) :
  save_checkpoint get_model_path current_epoch max_epochs
    current_step max_steps t = (Ok tt, t') ->
  save_checkpoint get_model_path current_epoch max_epochs
    current_step max_steps t' = (Ok tt, t').
Proof.
  unfold save_checkpoint.
  set (path := get_model_path current_epoch current_step max_epochs max_steps).
  destruct t as [m o s st ds fs].
  unfold mbind, M_bind, mbind', mget, mret, os_remove, shutil_rmtree,
    engine_save, mmodify, mraise.
  unfold mbind, M_bind, mbind', mget.
  ckpt_simpl.
  destruct (fs !! path) as [f|] eqn:Ef.
  - rewrite bool_decide_eq_true_2 by eauto.
    destruct ds, f as [d0|snap cs|bytes];
      try destruct m as [a c|n|];
      ckpt_simpl; rewrite ?Ef; ckpt_simpl;
      intros H; try discriminate H; injection H as <-;
      ckpt_simpl;
      rewrite lookup_insert_eq;
      (rewrite bool_decide_eq_true_2 by eauto);
      ckpt_simpl; rewrite ?lookup_insert_eq; ckpt_simpl;
      rewrite delete_insert_eq, insert_delete_eq; reflexivity.
  - rewrite bool_decide_eq_false_2 by (intros [x Hx]; discriminate).
    destruct ds; try destruct m as [a c|n|];
      ckpt_simpl;
      intros H; try discriminate H; injection H as <-;
      ckpt_simpl;
      rewrite lookup_insert_eq;
      (rewrite bool_decide_eq_true_2 by eauto);
      ckpt_simpl; rewrite ?lookup_insert_eq; ckpt_simpl;
      rewrite delete_insert_eq, insert_delete_eq; reflexivity.
Qed.

End CheckpointSaving.

Lemma save_checkpoint_twice_witness :
  save_checkpoint ex_get_model_path 5 10 (Some 2%Z) (Some 9%Z)
    (ex_saved (ex_trainer (SingleModel (ex_net 1 false)) 3 4 ∅) (Some 2%Z))
  = (Ok tt,
     ex_saved (ex_trainer (SingleModel (ex_net 1 false)) 3 4 ∅) (Some 2%Z)).
Proof.
  apply (save_checkpoint_twice ex_get_model_path
           (ex_trainer (SingleModel (ex_net 1 false)) 3 4 ∅)).
  vm_compute. reflexivity.
Defined.

(** ** Saved models *)

Section SavedModels.

Variable model_path : string.
Variable find_model : gmap string file -> option string.
Variable logger_error : (string -> exn) -> string -> exn.

Lemma lookup_model_dict (b : BaseModel) :
  model_dict_of b !! "model" = Some (PStateDict (bm_model b))
  /\ model_dict_of b !! "lora_peft" = Some (PBool (bm_lora b))
  /\ model_dict_of b !! "head"
     = if has_head (bm_role b) then Some (PStateDict (bm_head b)) else None.
Proof.
  unfold model_dict_of. destruct (has_head (bm_role b)); repeat split.
Qed.

(** X17. Round trip of a saved model.  After [save], a wrapped model of the
    same class and with the same adaptation flag that finds the file gets
    from [load] the saved weights of the language model and, for a reward
    or critic model, the saved weights of the head; an actor's load leaves
    the head field alone. *)
Theorem model_save_load_round_trip (w : ModelWorld) (b2 : BaseModel) :
  bm_role b2 = bm_role (mw_self w) ->
  bm_lora b2 = bm_lora (mw_self w) ->
  find_model (mw_fs (snd (save model_path w))) = Some model_path ->
  load find_model logger_error
    {| mw_self := b2; mw_fs := mw_fs (snd (save model_path w)) |}
  = (Ok tt,
     {| mw_self :=
          {| bm_role := bm_role b2;
             bm_model := bm_model (mw_self w);
             bm_head := if has_head (bm_role b2) then bm_head (mw_self w)
                        else bm_head b2;
             bm_lora := bm_lora b2 |};
        mw_fs := mw_fs (snd (save model_path w)) |}).
Proof.
  intros Hrole Hlora Hfind.
  assert (Hfile : mw_fs (snd (save model_path w)) !! model_path
                  = Some (Pickle (model_dict_of (mw_self w))))
    by apply lookup_insert_eq.
  remember (mw_fs (snd (save model_path w))) as fs' eqn:Efs. clear Efs.
  destruct (lookup_model_dict (mw_self w)) as (Hm & Hl & Hh).
  unfold load.
  unfold mbind, M_bind, mbind', mget, mlift, mmodify, mret, mraise,
    result_bind, rbind, flag_differs, dict_get.
  cbn [mw_fs mw_self]. rewrite Hfind, Hfile. cbn [torch_load].
  rewrite <- Hlora in Hl. rewrite <- Hrole in Hh.
  rewrite Hl, Hm, Hh. cbn [py_ne_bool].
  rewrite Bool.eqb_reflx.
  destruct (has_head (bm_role b2)); reflexivity.
Qed.

(** X18. Where [load_checkpoint] falls back to a fresh start, [load] raises,
    and the wrapped model stays as it was: a file that does not deserialize
    raises the loader's exception (there is no [try] here), and a saved
    adaptation flag that differs from the model's raises what the logger
    gives for a ValueError. *)
Theorem model_load_refuses (w : ModelWorld) (path : string) :
  find_model (mw_fs w) = Some path ->
  (forall e,
     torch_load (mw_fs w !! path) = Raise e ->
     load find_model logger_error w = (Raise e, w))
  /\ (forall d,
        mw_fs w !! path = Some (Pickle d) ->
        flag_differs d "lora_peft" (bm_lora (mw_self w)) = true ->
        load find_model logger_error w
        = (Raise (logger_error ValueError
                    "The model to load is not compatible with the current model."),
           w)).
Proof.
  intros Hfind. split.
  - intros e He. unfold load. unfold mbind, M_bind, mbind', mget, mlift.
    rewrite Hfind, He. reflexivity.
  - intros d Hd Hflag. unfold load. unfold mbind, M_bind, mbind', mget, mlift.
    rewrite Hfind, Hd. cbn [torch_load]. rewrite Hflag. reflexivity.
Qed.

End SavedModels.

Lemma model_save_load_round_trip_witness :
  load ex_find_model ex_logger_error
    {| mw_self := ex_model RoleCritic 7 8 false;
       mw_fs := mw_fs (snd (save "model.pt"
                              {| mw_self := ex_model RoleCritic 1 2 false;
                                 mw_fs := ∅ |})) |}
  = (Ok tt,
     {| mw_self := ex_model RoleCritic 1 2 false;
        mw_fs := mw_fs (snd (save "model.pt"
                               {| mw_self := ex_model RoleCritic 1 2 false;
                                  mw_fs := ∅ |})) |}).
Proof.
  apply (model_save_load_round_trip "model.pt" ex_find_model ex_logger_error
           {| mw_self := ex_model RoleCritic 1 2 false; mw_fs := ∅ |}
           (ex_model RoleCritic 7 8 false));
    vm_compute; reflexivity.
Defined.

Lemma model_load_refuses_witness :
  load ex_find_model ex_logger_error
    {| mw_self := ex_model RoleActor 7 8 true;
       mw_fs := {[ "model.pt" := Garbage [0; 1]%Z ]} |}
  = (Raise (UnpicklingError "invalid load key"),
     {| mw_self := ex_model RoleActor 7 8 true;
        mw_fs := {[ "model.pt" := Garbage [0; 1]%Z ]} |})
  /\ load ex_find_model ex_logger_error
       {| mw_self := ex_model RoleActor 7 8 true;
          mw_fs := {[ "model.pt" :=
                        Pickle (model_dict_of (ex_model RoleActor 1 2 false)) ]} |}
     = (Raise (ValueError
                 "The model to load is not compatible with the current model."),
        {| mw_self := ex_model RoleActor 7 8 true;
           mw_fs := {[ "model.pt" :=
                         Pickle (model_dict_of (ex_model RoleActor 1 2 false)) ]} |}).
Proof.
  split.
  - refine (proj1 (model_load_refuses ex_find_model ex_logger_error _
                     "model.pt" _) _ _);
      vm_compute; reflexivity.
  - refine (proj2 (model_load_refuses ex_find_model ex_logger_error _
                     "model.pt" _)
              (model_dict_of (ex_model RoleActor 1 2 false)) _ _);
      vm_compute; reflexivity.
Defined.

(** X20. Saving the actor-critic composite is saving the actor, as an actor,
    to the path of the composite and then the critic to the path of the
    critic: the critic's file is the one its own [save] writes, and so is
    the actor's, unless both paths are the same, in which case the critic's
    file replaces it. *)
Theorem actorcritic_save_is_two_saves
    (actor_rl_path critic_path : string) (a c : BaseModel)
    (fs : gmap string file) :
  bm_role a = RoleActor ->
  has_head (bm_role c) = true ->
  actorcritic_save actor_rl_path critic_path a c fs
  = mw_fs (snd (save critic_path
                  {| mw_self := c;
                     mw_fs := mw_fs (snd (save actor_rl_path
                                            {| mw_self := a; mw_fs := fs |})) |}))
  /\ actorcritic_save actor_rl_path critic_path a c fs !! critic_path
     = Some (Pickle (model_dict_of c))
  /\ actorcritic_save actor_rl_path critic_path a c fs !! actor_rl_path
     = Some (Pickle (model_dict_of (if bool_decide (actor_rl_path = critic_path)
                                    then c else a))).
Proof.
  intros Ha Hc.
  assert (E : actorcritic_save actor_rl_path critic_path a c fs
              = <[critic_path := Pickle (model_dict_of c)]>
                  (<[actor_rl_path := Pickle (model_dict_of a)]> fs)).
  { unfold actorcritic_save, model_dict_of. rewrite Ha, Hc. reflexivity. }
  split; [rewrite E; reflexivity|]. rewrite E. split.
  - apply lookup_insert_eq.
  - case_bool_decide as Hp.
    + subst. apply lookup_insert_eq.
    + rewrite lookup_insert_ne by congruence. apply lookup_insert_eq.
Qed.

Lemma actorcritic_save_is_two_saves_witness :
  actorcritic_save "actor_rl.pt" "critic.pt"
    (ex_model RoleActor 1 0 false) (ex_model RoleCritic 3 4 false) ∅
  !! "actor_rl.pt"
  = Some (Pickle (model_dict_of (ex_model RoleActor 1 0 false))).
Proof.
  destruct (actorcritic_save_is_two_saves "actor_rl.pt" "critic.pt"
              (ex_model RoleActor 1 0 false) (ex_model RoleCritic 3 4 false) ∅
              eq_refl eq_refl) as (_ & _ & H).
  rewrite H. reflexivity.
Defined.

(** ** Construction of a trainer, reward scoring, the reward dataset *)

(** X21. [BaseTrainer.__init__] accepts the backend flags exactly when
    DeepSpeed and Accelerate are not both enabled and, with DeepSpeed
    enabled, the DeepSpeed configuration path is given and exists; with
    neither enabled it accepts, which is the plain PyTorch mode. *)
Theorem init_flags_accepts
    (logger_error : (string -> exn) -> string -> exn)
    (accelerate deepspeed : bool)
    (deepspeed_config_path : option string) (path_exists : string -> bool) :
  (init_flags logger_error accelerate deepspeed deepspeed_config_path
     path_exists = Ok tt
   <-> accelerate && deepspeed = false
       /\ (deepspeed = true ->
           exists p, deepspeed_config_path = Some p /\ path_exists p = true))
  /\ init_flags logger_error false false deepspeed_config_path path_exists
     = Ok tt.
Proof.
  split; [|reflexivity]. unfold init_flags.
  destruct accelerate, deepspeed; cbn [andb].
  - split; [discriminate|]. intros [H _]. discriminate.
  - split; [intros _|reflexivity]. split; [reflexivity|discriminate].
  - destruct deepspeed_config_path as [p|].
    + destruct (path_exists p) eqn:E.
      * split; [intros _|reflexivity]. split; [reflexivity|]. eauto.
      * split; [discriminate|]. intros [_ H].
        destruct (H eq_refl) as (q & Hq & Hex). congruence.
    + split; [discriminate|]. intros [_ H].
      destruct (H eq_refl) as (q & Hq & _). discriminate.
  - split; [intros _|reflexivity]. split; [reflexivity|discriminate].
Qed.

Lemma last_column_rows {A} (t : list (list A)) :
  Forall (fun row => row <> []) t ->
  exists r,
    last_column t = Ok r
    /\ length r = length t
    /\ forall i row, t !! i = Some row -> r !! i = row !! (length row - 1)%nat.
Proof.
  unfold last_column. induction 1 as [|row t Hrow Ht IH]; cbn [rmap].
  - exists []. repeat split. intros i row Hi. rewrite lookup_nil in Hi.
    discriminate.
  - destruct IH as (r & -> & Hlen & Hr).
    destruct (lookup_lt_is_Some_2 row (length row - 1)) as [x Hx].
    { destruct row; [contradiction|]. simpl. lia. }
    rewrite Hx. exists (x :: r). split; [reflexivity|].
    split; [simpl; congruence|].
    intros [|i] row' Hi; simpl in Hi.
    + injection Hi as <-. simpl. symmetry. exact Hx.
    + simpl. apply Hr. exact Hi.
Qed.

(** X22. [get_reward] refuses a sequence longer than
    [max_sequence_length] with a ValueError whatever the network would
    return, so before the forward pass; a sequence within the limit gives,
    for every row of rewards, the reward of its last position. *)
Theorem get_reward_checks_the_length (max_sequence_length : nat)
    (output_sequence output_sequence_mask : tokens) :
  ((max_sequence_length < shape1 output_sequence)%nat ->
   forall reward_forward,
     get_reward max_sequence_length reward_forward
       output_sequence output_sequence_mask
     = Raise (ValueError "Output sequence is too long"))
  /\ ((shape1 output_sequence <= max_sequence_length)%nat ->
      forall reward_forward,
        Forall (fun row => row <> [])
          (reward_forward output_sequence output_sequence_mask) ->
        exists r,
          get_reward max_sequence_length reward_forward
            output_sequence output_sequence_mask = Ok r
          /\ length r
             = length (reward_forward output_sequence output_sequence_mask)
          /\ forall i row,
               reward_forward output_sequence output_sequence_mask !! i
               = Some row ->
               r !! i = row !! (length row - 1)%nat).
Proof.
  unfold get_reward. split.
  - intros H fw. apply Nat.ltb_lt in H. rewrite H. reflexivity.
  - intros H fw Hrows. apply Nat.ltb_ge in H. rewrite H.
    apply last_column_rows. exact Hrows.
Qed.

Lemma get_reward_checks_the_length_witness :
  get_reward 3 ex_reward_forward [[1; 2; 3; 4]]%Z [[1; 1; 1; 1]]%Z
  = Raise (ValueError "Output sequence is too long")
  /\ exists r,
       get_reward 4 ex_reward_forward [[1; 2; 3; 4]]%Z [[1; 1; 1; 1]]%Z = Ok r
       /\ length r = 1%nat.
Proof.
  destruct (get_reward_checks_the_length 3 [[1; 2; 3; 4]]%Z [[1; 1; 1; 1]]%Z)
    as [Hlong _].
  destruct (get_reward_checks_the_length 4 [[1; 2; 3; 4]]%Z [[1; 1; 1; 1]]%Z)
    as [_ Hok].
  split.
  - apply Hlong. simpl. lia.
  - destruct (Hok (le_n 4) ex_reward_forward) as (r & Hr & Hlen & _).
    + repeat constructor. discriminate.
    + exists r. split; [exact Hr|exact Hlen].
Defined.

Lemma Q2Qc_inject_Z_zero (n : Z) : Q2Qc (inject_Z n) = Q2Qc 0 -> n = 0%Z.
Proof.
  intros H. apply (f_equal this) in H. cbn [this Q2Qc] in H.
  apply Qred_eq_iff in H. unfold Qeq in H. cbn in H. lia.
Qed.

Lemma py_getitem_ok {A} (l : list A) (idx : Z) (a : A) :
  py_getitem l idx = Ok a ->
  (- Z.of_nat (length l) <= idx < Z.of_nat (length l))%Z
  /\ l !! Z.to_nat (if (idx <? 0)%Z then Z.of_nat (length l) + idx else idx)
     = Some a.
Proof.
  unfold py_getitem. cbv zeta.
  destruct (Z.leb_spec 0 idx) as [Hpos|Hneg].
  - intros H. apply py_index_ok in H.
    destruct (Z.ltb_spec idx 0) as [?|_]; [lia|].
    split; [|exact H]. apply lookup_lt_Some in H. lia.
  - destruct (Z.leb_spec (- Z.of_nat (length l)) idx) as [Hlow|Hlow];
      [|discriminate].
    intros H. apply py_index_ok in H.
    destruct (Z.ltb_spec idx 0) as [_|?]; [|lia].
    split; [lia|exact H].
Qed.

(** X23. [RewardDataset.__getitem__] takes the indices from [-len] to
    [len - 1], a negative one counting from the end, and raises an
    IndexError outside.  The item it returns holds the user input followed
    by the completion of that record, and a score that is never 0: a stored
    0 is read as a missing score and replaced by 2.5. *)
Theorem getitem_int_never_zero (data : list reward_record) (idx : Z) :
  let n := Z.of_nat (dataset_len data) in
  ((idx < - n \/ n <= idx)%Z ->
   getitem_int data idx = Raise (IndexError "list index out of range"))
  /\ forall text s,
       getitem_int data idx = Ok (text, s) ->
       (- n <= idx < n)%Z
       /\ s <> Q2Qc 0
       /\ exists rec,
            data !! Z.to_nat (if (idx <? 0)%Z then n + idx else idx)
            = Some rec
            /\ text = user_input rec +:+ completion rec
            /\ (truthy (score rec) = false -> s = Q2Qc (5 # 2)).
Proof.
  cbv zeta. unfold dataset_len. split.
  - intros Hout. unfold getitem_int, py_getitem, py_index. cbv zeta.
    destruct (Z.leb_spec 0 idx) as [Hpos|Hneg].
    + rewrite lookup_ge_None_2 by lia. reflexivity.
    + destruct (Z.leb_spec (- Z.of_nat (length data)) idx) as [Hlow|Hlow];
        [lia|reflexivity].
  - intros text s H. unfold getitem_int in H.
    apply rbind_ok in H as (rec & Hrec & H).
    apply py_getitem_ok in Hrec as [Hrange Hrec].
    split; [exact Hrange|].
    assert (Hs : s <> Q2Qc 0
                 /\ text = user_input rec +:+ completion rec
                 /\ (truthy (score rec) = false -> s = Q2Qc (5 # 2))).
    { cbv zeta in H. destruct (score rec) as [|k|q]; cbn in H.
      - injection H as <- <-. split; [|split; reflexivity].
        intros Hz. apply (f_equal this) in Hz. vm_compute in Hz. discriminate.
      - destruct (k =? 0)%Z eqn:Ek; cbn in H.
        + injection H as <- <-. split; [|split; reflexivity].
          intros Hz. apply (f_equal this) in Hz. vm_compute in Hz.
          discriminate.
        + injection H as <- <-. split; [|split; [reflexivity|]].
          * intros Hz. apply Q2Qc_inject_Z_zero in Hz. subst k. discriminate.
          * cbn. rewrite Ek. discriminate.
      - case_bool_decide as Hq; cbn in H.
        + injection H as <- <-. split; [|split; reflexivity].
          intros Hz. apply (f_equal this) in Hz. vm_compute in Hz.
          discriminate.
        + injection H as <- <-. split; [exact Hq|].
          split; [reflexivity|].
          cbn. rewrite bool_decide_eq_false_2 by exact Hq. discriminate. }
    destruct Hs as (Hs & Ht & Hd). split; [exact Hs|]. exists rec. auto.
Qed.

Lemma getitem_int_never_zero_witness :
  exists text s,
    getitem_int [ {| user_input := "bad? "; completion := "no";
                     score := ScoreInt 0 |};
                  {| user_input := "good? "; completion := "yes";
                     score := ScoreInt 4 |} ] (-1) = Ok (text, s)
    /\ s <> Q2Qc 0.
Proof.
  eexists. eexists. split; [reflexivity|].
  eapply (proj2 (getitem_int_never_zero
                   [ {| user_input := "bad? "; completion := "no";
                        score := ScoreInt 0 |};
                     {| user_input := "good? "; completion := "yes";
                        score := ScoreInt 4 |} ] (-1))).
  reflexivity.
Defined.
